(** * ORTTrainer: export of a PyTorch model to a training ONNX graph

    A shallow embedding of
    [orttraining/orttraining/python/training/orttrainer.py]:
    the class [ORTTrainer] with its constructor, its lazy build
    ([_init_onnx_model_], [train_step]), [save_as_onnx], and the function
    [convert_model_loss_fn_to_onnx] with its four stages (dynamic axes,
    sample inputs, dtype recording and export, initializer renaming).

    Python values are an inductive type, dictionaries are [gmap]s, the
    attributes of the trainer object are a [gmap string pyobj], and
    statements that can raise run in a state-and-exception monad over a
    [World] that also logs the calls made to the external collaborators
    (forward pass, [torch.onnx._export], postprocessing passes). *)

From Stdlib Require Import ZArith Lia.
From stdpp Require Import gmap strings list fin_maps.

Open Scope string_scope.
Open Scope list_scope.
Open Scope nat_scope.
Open Scope stdpp_scope.
Set Warnings "-register-all".

(** ** Python exceptions and results *)

Inductive exn :=
| AssertionError (msg : string)
| ValueError (msg : string)
| RuntimeError (msg : string)
| TypeError (msg : string)
| AttributeError (attr : string)
| NameError (name : string)
| KeyError (key : string)
| ExternalError (msg : string).

Inductive result (A : Type) :=
| Ok (a : A)
| Raise (e : exn).
Arguments Ok {A} a.
Arguments Raise {A} e.

Definition result_bind {A B} (r : result A) (k : A → result B) : result B :=
  match r with
  | Ok a => k a
  | Raise e => Raise e
  end.

(** A list comprehension whose element expression can raise: elements are
    evaluated left to right and the first exception ends the loop. *)
Fixpoint comprehension {A B} (f : A → result B) (l : list A) : result (list B) :=
  match l with
  | [] => Ok []
  | x :: l' =>
      result_bind (f x) (λ y,
      result_bind (comprehension f l') (λ ys, Ok (y :: ys)))
  end.

(** Python's [enumerate(iterable, start)]. *)
Fixpoint enumerate_from {A} (k : nat) (l : list A) : list (nat * A) :=
  match l with
  | [] => []
  | x :: l' => (k, x) :: enumerate_from (S k) l'
  end.

Definition enumerate {A} (l : list A) : list (nat * A) := enumerate_from 0 l.

(** [s.startswith(p)] and the slice [s[n:]] on strings. *)
Fixpoint startswith (s p : string) {struct p} : bool :=
  match p, s with
  | EmptyString, _ => true
  | String c p', String d s' => if Ascii.eqb c d then startswith s' p' else false
  | String _ _, EmptyString => false
  end.

Fixpoint slice_from (n : nat) (s : string) : string :=
  match n, s with
  | O, _ => s
  | S n', String _ s' => slice_from n' s'
  | S _, EmptyString => EmptyString
  end.

(** [needle in haystack] on strings. *)
Fixpoint contains (haystack needle : string) : bool :=
  startswith haystack needle ||
  match haystack with
  | EmptyString => false
  | String _ h' => contains h' needle
  end.

(** ** Tensors and the model description *)

Inductive Dtype := float16 | float32 | float64 | int32 | int64 | bool_.

Record Tensor := mkTensor {
  t_dtype : Dtype;
  t_device : string;
  t_data : list Z
}.

(** [tensor.to(device=device)] *)
Definition tensor_to (device : string) (t : Tensor) : Tensor :=
  {| t_dtype := t_dtype t; t_device := device; t_data := t_data t |}.

(** A shape entry of the model description: an [int] (static dimension) or a
    [str] (dynamic dimension). *)
Inductive Axis :=
| AxInt (n : Z)
| AxStr (s : string).

(** One input or output description, with the attributes the trainer reads
    ([name_], [shape_]) and writes ([dtype_]). *)
Record IODesc := mkIODesc {
  name_ : string;
  shape_ : list Axis;
  dtype_ : option Dtype
}.

Record ModelDesc := mkModelDesc {
  inputs_ : list IODesc;
  outputs_ : list IODesc
}.

(** ** Dynamic axes (lines 170-186) *)

(** The inner loop: [symbolic_axis[i] = axis] for every [str] entry. *)
Definition symbolic_axis_step (symbolic_axis : gmap nat string) (ia : nat * Axis)
  : gmap nat string :=
  match ia.2 with
  | AxStr axis => <[ia.1 := axis]> symbolic_axis
  | AxInt _ => symbolic_axis
  end.

Definition symbolic_axis_of (shape : list Axis) : gmap nat string :=
  fold_left symbolic_axis_step (enumerate shape) ∅.

(** One iteration of the outer loop: the entry is stored only
    [if len(symbolic_axis)]. *)
Definition dynamic_axes_step (dynamic_axes : gmap string (gmap nat string))
    (io : IODesc) : gmap string (gmap nat string) :=
  let symbolic_axis := symbolic_axis_of (shape_ io) in
  if bool_decide (size symbolic_axis ≠ 0)
  then <[name_ io := symbolic_axis]> dynamic_axes
  else dynamic_axes.

Definition dynamic_axes_of (model_desc : ModelDesc) : gmap string (gmap nat string) :=
  fold_left dynamic_axes_step (outputs_ model_desc)
    (fold_left dynamic_axes_step (inputs_ model_desc) ∅).

(** ** Python data values *)

Inductive pydata :=
| PNone
| PBool (b : bool)
| PInt (z : Z)
| PStr (s : string)
| PTensor (t : Tensor)
| PList (l : list pydata)
| PTuple (l : list pydata)
| PDict (d : gmap string pydata).

Definition is_tensor (v : pydata) : bool :=
  match v with PTensor _ => true | _ => false end.

(** ** ONNX protobuf messages, with the fields the trainer touches *)

Record TensorProto := mkTensorProto {
  tp_name : string;
  tp_data : list Z
}.

Record NodeProto := mkNodeProto {
  n_op_type : string;
  n_input : list string;
  n_output : list string
}.

Record GraphProto := mkGraphProto {
  initializer : list TensorProto;
  node : list NodeProto
}.

Record ModelProto := mkModelProto {
  graph : GraphProto
}.

(** ** PyTorch modules

    [named_parameters] is what [m.named_parameters()] yields, [model_] is the
    attribute of that name when the module has one ([hasattr(m, 'model_')]),
    [forward] is the call [m(x, ...)] in evaluation ([false]) or training
    ([true]) mode, and [call_arity] is [len(signature(m).parameters)]. *)
Inductive Module := mkModule {
  named_parameters : list (string * Tensor);
  model_ : option Module;
  forward : bool → list Tensor → result pydata;
  call_arity : nat
}.

(** ** Python objects handled by the trainer *)

Inductive pyobj :=
| ObjData (d : pydata)
| ObjModule (m : Module)              (* torch.nn.Module *)
| ObjModelProto (g : ModelProto)      (* onnx.ModelProto *)
| ObjFunction (nparams : nat)         (* a callable with [nparams] parameters *)
| ObjOptimizerConfig (lr : Z)         (* optim._OptimizerConfig *)
| ObjTrainerOptions (d : pydata)      (* ORTTrainerOptions *)
| ObjModelDesc                        (* the _ORTTrainerModelDesc held by the world *)
| ObjDevice (name : string)           (* torch.device *)
| ObjGlobal (name : string)           (* a module-level object *)
| ObjTrainer                          (* the ORTTrainer instance, self *)
| ObjMethod (name : string).          (* a method of ORTTrainer bound to self *)

Definition is_None (o : pyobj) : bool :=
  match o with ObjData PNone => true | _ => false end.

Definition callable (o : pyobj) : bool :=
  match o with
  | ObjFunction _ | ObjModule _ | ObjMethod _ => true
  | _ => false
  end.

(** [len(signature(o).parameters)] *)
Definition signature_parameters (o : pyobj) : nat :=
  match o with
  | ObjFunction n => n
  | ObjModule m => call_arity m
  | _ => 0
  end.

(** Truth value of an object in an [if]. *)
Definition truthy (o : pyobj) : bool :=
  match o with
  | ObjData PNone => false
  | ObjData (PBool b) => b
  | ObjData (PInt z) => negb (z =? 0)%Z
  | ObjData (PStr s) => negb (String.eqb s "")
  | ObjData (PList l) | ObjData (PTuple l) => negb (Nat.eqb (length l) 0)
  | ObjData (PDict d) => negb (Nat.eqb (size d) 0)
  | _ => true
  end.

(** ** The world: the trainer object and the log of external calls *)

(** The values of the [training] option of the exporter: a [bool], or a
    member of [torch.onnx.TrainingMode]. *)
Inductive TrainingOption :=
| TrainingBool (b : bool)
| TrainingMode_EVAL
| TrainingMode_PRESERVE
| TrainingMode_TRAINING.

(** The arguments of one call of [torch.onnx._export]. *)
Record ExportCall := mkExportCall {
  ex_model : Module;
  ex_model_training : bool;
  ex_args : list Tensor;
  ex_input_names : list string;
  ex_output_names : list string;
  ex_opset_version : Z;
  ex_dynamic_axes : gmap string (gmap nat string);
  ex_retain_param_name : bool;
  ex_example_outputs : list pydata;
  ex_do_constant_folding : bool;
  ex_training : TrainingOption;
  ex_enable_onnx_checker : option bool
}.

Inductive Pass :=
| InternalPass     (* postprocess.run_postprocess *)
| ExtraPass.       (* the user's _extra_postprocess *)

Record World := mkWorld {
  w_attrs : gmap string pyobj;            (* self.__dict__ *)
  w_model_desc : ModelDesc;               (* the object behind self.model_desc *)
  w_forward_calls : list (list Tensor);   (* sample forward passes *)
  w_export_calls : list ExportCall;       (* calls of torch.onnx._export *)
  w_passes : list Pass                    (* postprocessing passes applied *)
}.

(** ** Statements: state plus exceptions *)

Definition M (A : Type) : Type := World → World * result A.

Definition ret {A} (a : A) : M A := λ w, (w, Ok a).
Definition raise {A} (e : exn) : M A := λ w, (w, Raise e).
Definition bind {A B} (c : M A) (k : A → M B) : M B :=
  λ w, match c w with
       | (w', Ok a) => k a w'
       | (w', Raise e) => (w', Raise e)
       end.
Definition lift {A} (r : result A) : M A := λ w, (w, r).
Definition gets {A} (f : World → A) : M A := λ w, (w, Ok (f w)).
Definition modify (f : World → World) : M unit := λ w, (f w, Ok tt).

Notation "x <- c ;; k" := (bind c (λ x, k))
  (at level 100, c at next level, right associativity).
Notation "c ;;; k" := (bind c (λ _, k))
  (at level 100, right associativity).

(** [assert cond, msg] *)
Definition assert_ (cond : bool) (msg : string) : result unit :=
  if cond then Ok tt else Raise (AssertionError msg).

Definition set_attr (name : string) (v : pyobj) (w : World) : World :=
  {| w_attrs := <[name := v]> (w_attrs w);
     w_model_desc := w_model_desc w;
     w_forward_calls := w_forward_calls w;
     w_export_calls := w_export_calls w;
     w_passes := w_passes w |}.

Definition set_model_desc (d : ModelDesc) (w : World) : World :=
  {| w_attrs := w_attrs w;
     w_model_desc := d;
     w_forward_calls := w_forward_calls w;
     w_export_calls := w_export_calls w;
     w_passes := w_passes w |}.

Definition log_forward (args : list Tensor) (w : World) : World :=
  {| w_attrs := w_attrs w;
     w_model_desc := w_model_desc w;
     w_forward_calls := w_forward_calls w ++ [args];
     w_export_calls := w_export_calls w;
     w_passes := w_passes w |}.

Definition log_export (c : ExportCall) (w : World) : World :=
  {| w_attrs := w_attrs w;
     w_model_desc := w_model_desc w;
     w_forward_calls := w_forward_calls w;
     w_export_calls := w_export_calls w ++ [c];
     w_passes := w_passes w |}.

Definition log_pass (p : Pass) (w : World) : World :=
  {| w_attrs := w_attrs w;
     w_model_desc := w_model_desc w;
     w_forward_calls := w_forward_calls w;
     w_export_calls := w_export_calls w;
     w_passes := w_passes w ++ [p] |}.

(** ** Sample inputs (lines 191-198) *)

(** [v.to(device=device)]: only tensors have the method. *)
Definition to_device (device : string) (v : pydata) : result Tensor :=
  match v with
  | PTensor t => Ok (tensor_to device t)
  | _ => Raise (AttributeError "to")
  end.

Definition unexpected_input_type : string :=
  "Unexpected input type. Only torch.Tensor, or dict/list/tuple of torch.Tensor is supported.".

Definition gather_sample_inputs (model_desc : ModelDesc) (device : string)
    (inputs : pydata) : result (list Tensor) :=
  let inputs := if is_tensor inputs then PList [inputs] else inputs in
  match inputs with
  | PDict d =>
      comprehension
        (λ k, match d !! name_ k with
              | Some v => to_device device v
              | None => Raise (KeyError (name_ k))
              end)
        (inputs_ model_desc)
  | PList l | PTuple l =>
      comprehension (λ ix, to_device device ix.2)
        (filter (λ ix, ix.1 < length (inputs_ model_desc)) (enumerate l))
  | _ => Raise (RuntimeError unexpected_input_type)
  end.

(** ** Output dtypes (lines 208-211) *)

(** Lines 208-210: a tensor result becomes a one-element list; anything else
    is iterated by [zip] (a dict yields its keys, a string its characters). *)
Definition sample_output_items (sample_outputs : pydata) : result (list pydata) :=
  match sample_outputs with
  | PTensor t => Ok [PTensor t]
  | PList l | PTuple l => Ok l
  | PDict d => Ok (PStr <$> (map_to_list d).*1)
  | PStr s => Ok ((λ c, PStr (String c EmptyString)) <$> String.list_ascii_of_string s)
  | PNone | PBool _ | PInt _ => Raise (TypeError "object is not iterable")
  end.

(** [sample_output.dtype] *)
Definition getattr_dtype (v : pydata) : result Dtype :=
  match v with
  | PTensor t => Ok (t_dtype t)
  | _ => Raise (AttributeError "dtype")
  end.

Definition with_dtype (dt : Dtype) (io : IODesc) : IODesc :=
  {| name_ := name_ io; shape_ := shape_ io; dtype_ := Some dt |}.

(** [output_desc.dtype_ = ...] on the i-th object of [model_desc.outputs_]. *)
Definition set_output_dtype (i : nat) (dt : Dtype) : M unit :=
  modify (λ w, set_model_desc
    {| inputs_ := inputs_ (w_model_desc w);
       outputs_ := alter (with_dtype dt) i (outputs_ (w_model_desc w)) |} w).

(** The loop over [zip(sample_outputs, model_desc.outputs_)]; each output
    description is identified by its index. *)
Fixpoint record_dtypes_loop (pairs : list (pydata * nat)) : M unit :=
  match pairs with
  | [] => ret tt
  | (sample_output, i) :: rest =>
      dt <- lift (getattr_dtype sample_output) ;;
      set_output_dtype i dt ;;;
      record_dtypes_loop rest
  end.

Definition record_output_dtypes (items : list pydata) : M unit :=
  model_desc <- gets w_model_desc ;;
  record_dtypes_loop (zip items (seq 0 (length (outputs_ model_desc)))).

(** ** Removing the wrapper prefix (lines 239-248) *)

Definition with_name (name : string) (n : TensorProto) : TensorProto :=
  {| tp_name := name; tp_data := tp_data n |}.

(** First loop: fills [replace_name_dict] and renames the initializers in
    place. *)
Definition rename_initializer_step
    (st : gmap string string * list TensorProto) (n : TensorProto)
  : gmap string string * list TensorProto :=
  if startswith (tp_name n) "model_." then
    let replace_name_dict :=
      <[tp_name n := slice_from (String.length "model_.") (tp_name n)]> st.1 in
    (replace_name_dict,
     (st.2 ++ [with_name (default (tp_name n) (replace_name_dict !! tp_name n)) n])%list)
  else (st.1, (st.2 ++ [n])%list).

Definition rename_initializers (inits : list TensorProto)
  : gmap string string * list TensorProto :=
  fold_left rename_initializer_step inits (∅, []).

(** Second loop, inner part: [if name in replace_name_dict: n.input[i] = ...]. *)
Definition rewrite_input_at (replace_name_dict : gmap string string)
    (input : list string) (i : nat) : list string :=
  match input !! i with
  | Some name =>
      match replace_name_dict !! name with
      | Some new => <[i := new]> input
      | None => input
      end
  | None => input
  end.

Definition rewrite_node (replace_name_dict : gmap string string) (n : NodeProto)
  : NodeProto :=
  {| n_op_type := n_op_type n;
     n_input := fold_left (rewrite_input_at replace_name_dict)
                  (seq 0 (length (n_input n))) (n_input n);
     n_output := n_output n |}.

(** Visiting the nodes of the graph in a given order of positions, each node
    being updated in place. *)
Definition visit_node (replace_name_dict : gmap string string)
    (nodes : list NodeProto) (i : nat) : list NodeProto :=
  match nodes !! i with
  | Some n => <[i := rewrite_node replace_name_dict n]> nodes
  | None => nodes
  end.

Definition visit_nodes (replace_name_dict : gmap string string)
    (order : list nat) (nodes : list NodeProto) : list NodeProto :=
  fold_left (visit_node replace_name_dict) order nodes.

Definition remove_wrapper_prefix (onnx_model : ModelProto) : ModelProto :=
  let st := rename_initializers (initializer (graph onnx_model)) in
  let nodes := node (graph onnx_model) in
  {| graph := {| initializer := st.2;
                 node := visit_nodes st.1 (seq 0 (length nodes)) nodes |} |}.

(** ** Initializer check (lines 250-256) *)

Definition initializer_mismatch : string :=
  "Initializer names do not match between PyTorch model and ONNX model, please report a bug to ONNX Runtime.".

Definition parameters_to_check (model : Module) : list (string * Tensor) :=
  match model_ model with
  | Some inner => named_parameters inner
  | None => named_parameters model
  end.

Definition check_initializer_names (model : Module) (onnx_model : ModelProto)
  : result unit :=
  assert_
    (bool_decide
       ((list_to_set (parameters_to_check model).*1 : gset string)
        ⊆ list_to_set (tp_name <$> initializer (graph onnx_model))))
    initializer_mismatch.

(** ** The trainer *)

(** Collaborators the file calls without defining them: the wrapper and the
    postprocessing pass of the package, the exporter and loader of
    torch/onnx, the version comparison, the default opset, the validators
    of the model description and of the options, and calls of user-supplied
    callables. *)
Class Collaborators := {
  wrap_for_input_match : Module → pyobj → list string → result Module;
  torch_onnx_export : ExportCall → result string;
  onnx_load_model_from_string : string → result ModelProto;
  run_postprocess : ModelProto → result ModelProto;
  torch_version : string;
  LooseVersion_gt : string → string → bool;
  LooseVersion_ge : string → string → bool;
  DEFAULT_OPSET_VERSION : Z;
  _ORTTrainerModelDesc : pyobj → result ModelDesc;
  ORTTrainerOptions : pyobj → result pyobj;
  call_function : pyobj → list pyobj → result pyobj
}.

Section Trainer.

Context `{env : Collaborators}.

Definition call_forward (model : Module) (training : bool) (args : list Tensor)
  : M pydata :=
  modify (log_forward args) ;;; lift (forward model training args).

Definition call_export (c : ExportCall) : M string :=
  modify (log_export c) ;;; lift (torch_onnx_export c).

Definition call_run_postprocess (onnx_model : ModelProto) : M ModelProto :=
  modify (log_pass InternalPass) ;;; lift (run_postprocess onnx_model).

(** Lines 217-225: [other_export_options], as the pair of its two keys. *)
Definition other_export_options : TrainingOption * option bool :=
  let training := TrainingBool true in
  let enable_onnx_checker :=
    if LooseVersion_gt torch_version "1.4.0" then Some false else None in
  let training :=
    if LooseVersion_ge torch_version "1.6.0" then TrainingMode_TRAINING else training in
  (training, enable_onnx_checker).

(** Lines 169-261. [model_desc] is the description object of the world. *)
Definition convert_model_loss_fn_to_onnx (model : Module) (loss_fn : pyobj)
    (device : string) (inputs : pydata) (opset_version : Z)
    (_enable_internal_postprocess : bool) : M ModelProto :=
  model_desc <- gets w_model_desc ;;
  let dynamic_axes := dynamic_axes_of model_desc in
  let input_names := name_ <$> inputs_ model_desc in
  let output_names := name_ <$> outputs_ model_desc in
  sample_inputs <- lift (gather_sample_inputs model_desc device inputs) ;;
  model <- lift (wrap_for_input_match model loss_fn input_names) ;;
  (* model.eval(), torch.no_grad() *)
  sample_outputs <- call_forward model false sample_inputs ;;
  sample_outputs <- lift (sample_output_items sample_outputs) ;;
  record_output_dtypes sample_outputs ;;;
  (* model.train() *)
  buffer <- call_export
    {| ex_model := model;
       ex_model_training := true;
       ex_args := sample_inputs;
       ex_input_names := input_names;
       ex_output_names := output_names;
       ex_opset_version := opset_version;
       ex_dynamic_axes := dynamic_axes;
       ex_retain_param_name := true;
       ex_example_outputs := sample_outputs;
       ex_do_constant_folding := false;
       ex_training := other_export_options.1;
       ex_enable_onnx_checker := other_export_options.2 |} ;;
  onnx_model <- lift (onnx_load_model_from_string buffer) ;;
  let onnx_model := remove_wrapper_prefix onnx_model in
  lift (check_initializer_names model onnx_model) ;;;
  if _enable_internal_postprocess
  then call_run_postprocess onnx_model
  else ret onnx_model.

(** *** Attribute and name lookup *)

Definition ORTTrainer_methods : list string :=
  ["__init__"; "eval_step"; "save_as_onnx"; "convert_model_loss_fn_to_onnx";
   "_init_onnx_model_"; "train_step"].

(** [self.name]: the instance dictionary, then the functions of the class. *)
Definition getattr_self (name : string) : M pyobj :=
  λ w, match w_attrs w !! name with
       | Some v => (w, Ok v)
       | None =>
           if bool_decide (name ∈ ORTTrainer_methods)
           then (w, Ok (ObjMethod name))
           else (w, Raise (AttributeError name))
       end.

Definition setattr_self (name : string) (v : pyobj) : M unit :=
  modify (set_attr name v).

(** Names bound at module level by the file: its imports and its classes. *)
Definition module_names : list string :=
  ["onnx"; "torch"; "signature"; "ORTTrainerOptions"; "optim";
   "_ORTTrainerModelDesc"; "TrainStepInfo"; "ORTTrainer"].

(** A bare name: local variables first, then the module (the builtins have
    [input] but no [inputs]). *)
Definition lookup_name (locals : list (string * pyobj)) (name : string) : M pyobj :=
  match list_to_map (M := gmap string pyobj) locals !! name with
  | Some v => ret v
  | None =>
      if bool_decide (name ∈ module_names)
      then ret (ObjGlobal name)
      else raise (NameError name)
  end.

(** *** Calls *)

Definition convert_parameters : list string :=
  ["model"; "loss_fn"; "model_desc"; "device"; "inputs"; "opset_version";
   "_enable_internal_postprocess"].

Fixpoint bind_positional (params : list string) (args : list pyobj)
  : result (gmap string pyobj) :=
  match args, params with
  | [], _ => Ok ∅
  | a :: args', p :: params' =>
      result_bind (bind_positional params' args') (λ b, Ok (<[p := a]> b))
  | _ :: _, [] => Raise (TypeError "too many positional arguments")
  end.

Fixpoint bind_keywords (params : list string) (bound : gmap string pyobj)
    (kwargs : list (string * pyobj)) : result (gmap string pyobj) :=
  match kwargs with
  | [] => Ok bound
  | (k, v) :: kwargs' =>
      if bool_decide (k ∈ params) then
        match bound !! k with
        | Some _ => Raise (TypeError ("got multiple values for argument " +:+ k))
        | None => bind_keywords params (<[k := v]> bound) kwargs'
        end
      else Raise (TypeError ("got an unexpected keyword argument " +:+ k))
  end.

(** A call of the function [convert_model_loss_fn_to_onnx] with positional
    and keyword arguments: the arguments are bound to the parameters as
    Python does, the last two parameters have defaults, and the body runs
    on arguments of the types it is written for (on others this model stops
    with a [TypeError]). *)
Definition call_convert (args : list pyobj) (kwargs : list (string * pyobj))
  : M pyobj :=
  b <- lift (result_bind (bind_positional convert_parameters args)
               (λ b, bind_keywords convert_parameters b kwargs)) ;;
  match b !! "model", b !! "loss_fn", b !! "model_desc", b !! "device", b !! "inputs" with
  | Some (ObjModule m), Some loss_fn, Some ObjModelDesc, Some (ObjDevice device),
    Some (ObjData inputs) =>
      match default (ObjData (PInt DEFAULT_OPSET_VERSION)) (b !! "opset_version") with
      | ObjData (PInt opset_version) =>
          g <- convert_model_loss_fn_to_onnx m loss_fn device inputs opset_version
                 (truthy (default (ObjData (PBool true))
                            (b !! "_enable_internal_postprocess"))) ;;
          ret (ObjModelProto g)
      | _ => raise (TypeError "opset_version")
      end
  | Some _, Some _, Some _, Some _, Some _ => raise (TypeError "argument of an unexpected type")
  | _, _, _, _, _ => raise (TypeError "missing required positional argument")
  end.

(** [f(args, kwargs)] for an object read from the trainer: the class's
    function bound to [self] receives [self] as its first argument; other
    callables are external. *)
Definition call_object (f : pyobj) (args : list pyobj)
    (kwargs : list (string * pyobj)) : M pyobj :=
  match f with
  | ObjMethod name =>
      if String.eqb name "convert_model_loss_fn_to_onnx"
      then call_convert (ObjTrainer :: args) kwargs
      else lift (call_function f (ObjTrainer :: args))
  | ObjFunction _ | ObjModule _ => lift (call_function f args)
  | _ => raise (TypeError "object is not callable")
  end.

(** [m.cpu()] moves the parameters of the module and of its submodule. *)
Fixpoint module_cpu (m : Module) : Module :=
  {| named_parameters := prod_map id (tensor_to "cpu") <$> named_parameters m;
     model_ := match model_ m with
               | Some inner => Some (module_cpu inner)
               | None => None
               end;
     forward := forward m;
     call_arity := call_arity m |}.

(** *** [__init__] (lines 108-144) *)

Definition isinstance_dict (o : pyobj) : bool :=
  match o with ObjData (PDict _) => true | _ => false end.
Definition isinstance_OptimizerConfig (o : pyobj) : bool :=
  match o with ObjOptimizerConfig _ => true | _ => false end.
Definition isinstance_ORTTrainerOptions (o : pyobj) : bool :=
  match o with ObjTrainerOptions _ => true | _ => false end.
Definition isinstance_Module (o : pyobj) : bool :=
  match o with ObjModule _ => true | _ => false end.
Definition isinstance_ModelProto (o : pyobj) : bool :=
  match o with ObjModelProto _ => true | _ => false end.

Definition model_required : string :=
  "'model' is required and must be either a 'torch.nn.Module' or ONNX model".
Definition model_desc_not_dict : string := "'model_desc' must be a 'dict'".
Definition optim_config_required : string :=
  "'optim_config' is required and must be any of 'AdamConfig', 'LambConfig' or 'SGDConfig'".
Definition loss_fn_not_callable : string :=
  "'loss_fn' must be either 'None' or a callable with two parameters".
Definition options_invalid : string :=
  "'loss_fn' must be either 'None' or 'ORTTrainerOptions'".
Definition loss_fn_not_module : string :=
  "'loss_fn' must be either 'None' or 'torch.nn.Module'".
Definition loss_fn_with_onnx : string :=
  "'loss_fn' must not be specified when 'model' is an ONNX model".
Definition model_type_invalid : string :=
  "'model' must be either 'torch.nn.Module' or 'onnx.ModelProto'".

Definition __init__ (model model_desc optim_config loss_fn options : pyobj) : M unit :=
  lift (assert_ (negb (is_None model)) model_required) ;;;
  lift (assert_ (isinstance_dict model_desc) model_desc_not_dict) ;;;
  lift (assert_ (isinstance_OptimizerConfig optim_config) optim_config_required) ;;;
  lift (assert_ (is_None loss_fn
                 || (callable loss_fn && Nat.eqb (signature_parameters loss_fn) 2))
          loss_fn_not_callable) ;;;
  lift (assert_ (is_None options || isinstance_ORTTrainerOptions options)
          options_invalid) ;;;
  setattr_self "_torch_model" (ObjData PNone) ;;;
  setattr_self "_onnx_model" (ObjData PNone) ;;;
  (if isinstance_Module model then
     lift (assert_ (is_None loss_fn || isinstance_Module model) loss_fn_not_module) ;;;
     setattr_self "_torch_model" model ;;;
     setattr_self "_loss_fn" loss_fn
   else if isinstance_ModelProto model then
     lift (assert_ (is_None loss_fn) loss_fn_with_onnx) ;;;
     setattr_self "_onnx_model" model ;;;
     setattr_self "_loss_fn" (ObjData PNone)
   else raise (ValueError model_type_invalid)) ;;;
  d <- lift (_ORTTrainerModelDesc model_desc) ;;
  modify (set_model_desc d) ;;;
  setattr_self "model_desc" ObjModelDesc ;;;
  setattr_self "optim_config" optim_config ;;;
  o <- lift (ORTTrainerOptions options) ;;
  setattr_self "options" o.

(** The object before [__init__] runs. *)
Definition new_object : World :=
  {| w_attrs := ∅;
     w_model_desc := {| inputs_ := []; outputs_ := [] |};
     w_forward_calls := [];
     w_export_calls := [];
     w_passes := [] |}.

(** [ORTTrainer(model, model_desc, optim_config, loss_fn, options)] *)
Definition ORTTrainer (model model_desc optim_config loss_fn options : pyobj)
  : result World :=
  match __init__ model model_desc optim_config loss_fn options new_object with
  | (w, Ok _) => Ok w
  | (_, Raise e) => Raise e
  end.

(** *** [eval_step] and [save_as_onnx] (lines 146-167): both bodies are [pass] *)

Definition eval_step (input : list pydata) (kwargs : list (string * pydata))
  : M pyobj :=
  ret (ObjData PNone).

Definition save_as_onnx (path : string) : M pyobj :=
  ret (ObjData PNone).

(** *** [_init_onnx_model_] (lines 263-280) *)

(** Line 268: [self.torch_model_.cpu()] *)
Definition init_move_to_cpu : M unit :=
  m <- getattr_self "torch_model_" ;;
  match m with
  | ObjModule m => setattr_self "torch_model_" (ObjModule (module_cpu m))
  | _ => raise (AttributeError "cpu")
  end.

(** Line 271: the callee, the arguments from left to right, the call, the
    assignment to [self.onnx_model]. The local variables of the method are
    [self] and [input]. *)
Definition init_export (input : list pydata) : M unit :=
  let locals := [("self", ObjTrainer); ("input", ObjData (PTuple input))] in
  f <- getattr_self "convert_model_loss_fn_to_onnx" ;;
  a1 <- getattr_self "_torch_model" ;;
  a2 <- getattr_self "loss_fn" ;;
  a3 <- getattr_self "model_desc" ;;
  a4 <- ret (ObjDevice "cpu") ;;
  a5 <- lookup_name locals "inputs" ;;
  k1 <- getattr_self "opset_version" ;;
  k2 <- getattr_self "_enable_internal_postprocess" ;;
  r <- call_object f [a1; a2; a3; a4; a5]
         [("opset_version", k1); ("_enable_internal_postprocess", k2)] ;;
  setattr_self "onnx_model" r.

(** Lines 274-280. *)
Definition init_postprocess : M unit :=
  e <- getattr_self "_enable_internal_postprocess" ;;
  (if truthy e then
     g <- getattr_self "onnx_model_" ;;
     match g with
     | ObjModelProto g =>
         g' <- call_run_postprocess g ;;
         setattr_self "_onnx_model_" (ObjModelProto g')
     | _ => raise (AttributeError "graph")
     end
   else ret tt) ;;;
  x <- getattr_self "_extra_postprocess" ;;
  (if truthy x then
     f <- getattr_self "_extra_postprocess" ;;
     g <- getattr_self "onnx_model_" ;;
     modify (log_pass ExtraPass) ;;;
     call_object f [g] [] ;;;
     ret tt
   else ret tt) ;;;
  v <- getattr_self "_verify_fully_optimized_model" ;;
  g <- getattr_self "onnx_model_" ;;
  call_object v [g] [] ;;;
  ret tt.

Definition _init_onnx_model_ (input : list pydata) : M unit :=
  onnx_model <- getattr_self "_onnx_model" ;;
  if negb (is_None onnx_model) then ret tt
  else
    torch_model <- getattr_self "_torch_model" ;;
    if negb (is_None torch_model) then
      init_move_to_cpu ;;;
      init_export input ;;;
      init_postprocess
    else ret tt.

(** *** [train_step] (lines 283-298) *)

Definition train_step (input : list pydata) (kwargs : list (string * pydata))
  : M pyobj :=
  onnx_model <- getattr_self "_onnx_model" ;;
  (if is_None onnx_model then _init_onnx_model_ input else ret tt) ;;;
  ret (ObjData PNone).

(** Sequential calls of [train_step] on one trainer, the caller going on
    after an exception. *)
Fixpoint train_steps (calls : list (list pydata)) (w : World)
  : World * list (result pyobj) :=
  match calls with
  | [] => (w, [])
  | input :: rest =>
      let r := train_step input [] w in
      let rs := train_steps rest r.1 in
      (rs.1, r.2 :: rs.2)
  end.

End Trainer.


(** ** [TrainStepInfo] (lines 9-45) *)

Module TrainStepInfo.

(** The three attributes the constructor stores. *)
Record info := mk_info {
  all_finite : pyobj;
  step : pyobj;
  optimizer_config : pyobj
}.

Definition isinstance_bool (o : pyobj) : bool :=
  match o with ObjData (PBool _) => true | _ => false end.

(** [isinstance(o, int)]: [bool] is a subclass of [int]. *)
Definition isinstance_int (o : pyobj) : bool :=
  match o with ObjData (PInt _) | ObjData (PBool _) => true | _ => false end.

(** [o >= 0] for an [int]; [True] is 1 and [False] is 0. *)
Definition ge_zero (o : pyobj) : bool :=
  match o with
  | ObjData (PInt z) => (0 <=? z)%Z
  | ObjData (PBool _) => true
  | _ => false
  end.

Definition all_finite_invalid : string := "all_finite must be either None or a bool".
Definition step_invalid : string := "step must be either None or a positive int".
Definition optimizer_config_invalid : string :=
  "optimizer_config must be either None or optim._OptimizerConfig".

Definition __init__ (all_finite step optimizer_config : pyobj) : result info :=
  result_bind
    (assert_ (is_None all_finite || isinstance_bool all_finite) all_finite_invalid)
    (λ _,
  result_bind
    (assert_ (is_None step || (isinstance_int step && ge_zero step)) step_invalid)
    (λ _,
  result_bind
    (assert_ (is_None optimizer_config || isinstance_OptimizerConfig optimizer_config)
       optimizer_config_invalid)
    (λ _,
  Ok {| all_finite := all_finite; step := step;
        optimizer_config := optimizer_config |}))).

End TrainStepInfo.


(** ** A small trainer used in the examples *)

Module Sample.

Definition x : Tensor :=
  {| t_dtype := float32; t_device := "cuda"; t_data := [1; 2; 3; 4]%Z |}.

Definition weight : Tensor :=
  {| t_dtype := float32; t_device := "cuda"; t_data := [5; 6; 7; 8]%Z |}.

Definition bias : Tensor :=
  {| t_dtype := float32; t_device := "cuda"; t_data := [9]%Z |}.

Definition y : Tensor :=
  {| t_dtype := float16; t_device := "cpu"; t_data := [0]%Z |}.

(** A module with two parameters whose call returns one tensor. *)
Definition net : Module :=
  {| named_parameters := [("weight", weight); ("bias", bias)];
     model_ := None;
     forward := λ _ _, Ok (PTensor y);
     call_arity := 1 |}.

Definition desc : ModelDesc :=
  {| inputs_ := [ {| name_ := "x"; shape_ := [AxStr "batch"; AxInt 4]; dtype_ := None |} ];
     outputs_ := [ {| name_ := "y"; shape_ := []; dtype_ := None |} ] |}.

(** The dictionary given to the constructor for [desc]. *)
Definition raw_desc : pyobj :=
  ObjData (PDict (list_to_map
    [("inputs", PList [PTuple [PStr "x"; PList [PStr "batch"; PInt 4]]]);
     ("outputs", PList [PTuple [PStr "y"; PList []; PBool true]])])).

(** An input and an output that share the name [x]. *)
Definition shared_name_desc : ModelDesc :=
  {| inputs_ := [ {| name_ := "x"; shape_ := [AxStr "batch"]; dtype_ := None |} ];
     outputs_ := [ {| name_ := "x"; shape_ := [AxInt 4]; dtype_ := None |} ] |}.

(** What the exporter produces for [net] behind the wrapper. *)
Definition exported : ModelProto :=
  {| graph :=
       {| initializer := [ {| tp_name := "model_.weight"; tp_data := [5; 6; 7; 8]%Z |};
                           {| tp_name := "model_.bias"; tp_data := [9]%Z |};
                           {| tp_name := "running_mean"; tp_data := [0]%Z |} ];
          node := [ {| n_op_type := "Gemm";
                       n_input := ["x"; "model_.weight"; "model_.bias"];
                       n_output := ["h"] |};
                    {| n_op_type := "Add";
                       n_input := ["h"; "running_mean"];
                       n_output := ["y"] |} ] |} |}.

(** The wrapper keeps the module under the attribute [model_]. *)
Definition wrap (m : Module) (loss_fn : pyobj) (input_names : list string)
  : result Module :=
  Ok {| named_parameters := prod_map (String.append "model_.") id <$> named_parameters m;
        model_ := Some m;
        forward := forward m;
        call_arity := length input_names |}.

Definition env : Collaborators :=
  {| wrap_for_input_match := wrap;
     torch_onnx_export := λ _, Ok "onnx";
     onnx_load_model_from_string := λ _, Ok exported;
     run_postprocess := λ g, Ok g;
     torch_version := "1.7.0";
     LooseVersion_gt := λ a b, String.ltb b a;
     LooseVersion_ge := λ a b, String.leb b a;
     DEFAULT_OPSET_VERSION := 12%Z;
     _ORTTrainerModelDesc := λ _, Ok desc;
     ORTTrainerOptions := λ _, Ok (ObjTrainerOptions PNone);
     call_function := λ _ _, Ok (ObjData PNone) |}.

(** [net] behind the wrapper. *)
Definition wrapped : Module :=
  {| named_parameters := [("model_.weight", weight); ("model_.bias", bias)];
     model_ := Some net;
     forward := forward net;
     call_arity := 1 |}.

(** A graph that lost its initializers. *)
Definition no_initializers : ModelProto :=
  {| graph := {| initializer := []; node := [] |} |}.

(** [ORTTrainer(net, raw_desc, SGDConfig(lr=1))] *)
Definition trainer : result World :=
  ORTTrainer (env := env) (ObjModule net) raw_desc (ObjOptimizerConfig 1)
    (ObjData PNone) (ObjData PNone).

(** The trainer just built, before any step. *)
Definition built : World :=
  match trainer with
  | Ok w => w
  | Raise _ => new_object
  end.


(** [ORTTrainer(exported, raw_desc, SGDConfig(lr=1))]: a trainer built from
    an ONNX model. *)
Definition onnx_trainer : result World :=
  ORTTrainer (env := env) (ObjModelProto exported) raw_desc (ObjOptimizerConfig 1)
    (ObjData PNone) (ObjData PNone).

Definition built_onnx : World :=
  match onnx_trainer with
  | Ok w => w
  | Raise _ => new_object
  end.

(** A description with two inputs and two outputs. *)
Definition desc2 : ModelDesc :=
  {| inputs_ := [ {| name_ := "x"; shape_ := [AxStr "batch"; AxInt 4]; dtype_ := None |};
                  {| name_ := "label"; shape_ := [AxStr "batch"]; dtype_ := None |} ];
     outputs_ := [ {| name_ := "loss"; shape_ := []; dtype_ := None |};
                   {| name_ := "x"; shape_ := [AxInt 2; AxStr "seq"]; dtype_ := None |} ] |}.

(** A module whose call returns a tensor and then something that is not a
    tensor. *)
Definition odd_net : Module :=
  {| named_parameters := [("weight", weight)];
     model_ := None;
     forward := λ _ _, Ok (PTuple [PTensor y; PInt 7]);
     call_arity := 2 |}.

(** A module whose call fails. *)
Definition failing_net : Module :=
  {| named_parameters := [];
     model_ := None;
     forward := λ _ _, Raise (ExternalError "size mismatch");
     call_arity := 1 |}.

(** A module whose call returns a list of two tensors. *)
Definition pair_net : Module :=
  {| named_parameters := [("weight", weight)];
     model_ := None;
     forward := λ _ _, Ok (PList [PTensor y; PTensor x]);
     call_arity := 1 |}.

(** An environment whose wrapper returns the model itself. *)
Definition bare_env : Collaborators :=
  {| wrap_for_input_match := λ m _ _, Ok m;
     torch_onnx_export := λ _, Ok "onnx";
     onnx_load_model_from_string := λ _, Ok exported;
     run_postprocess := λ g, Ok g;
     torch_version := "1.7.0";
     LooseVersion_gt := λ a b, String.ltb b a;
     LooseVersion_ge := λ a b, String.leb b a;
     DEFAULT_OPSET_VERSION := 12%Z;
     _ORTTrainerModelDesc := λ _, Ok desc2;
     ORTTrainerOptions := λ _, Ok (ObjTrainerOptions PNone);
     call_function := λ _ _, Ok (ObjData PNone) |}.

(** A world holding [desc2] and nothing else. *)
Definition world2 : World :=
  {| w_attrs := ∅;
     w_model_desc := desc2;
     w_forward_calls := [];
     w_export_calls := [];
     w_passes := [] |}.

End Sample.

(** * Properties *)

Section Properties.

Context `{env : Collaborators}.


(** ** Strings *)

Lemma startswith_app (p r : string) : startswith (p +:+ r) p = true.
Proof.
  induction p as [|c p IH]; simpl; [done|].
  by rewrite Ascii.eqb_refl.
Qed.

Lemma slice_from_app (p r : string) : slice_from (String.length p) (p +:+ r) = r.
Proof. induction p as [|c p IH]; simpl; [by destruct r | exact IH]. Qed.

Lemma startswith_split (s p : string) :
  startswith s p = true → s = p +:+ slice_from (String.length p) s.
Proof.
  revert s. induction p as [|c p IH]; intros s H; simpl in *.
  - by destruct s.
  - destruct s as [|d s]; [done|].
    destruct (Ascii.eqb c d) eqn:E; [|done].
    apply Ascii.eqb_eq in E as ->.
    change (String d s = String d (p +:+ slice_from (String.length p) s)).
    f_equal. by apply IH.
Qed.

#[local] Arguments startswith : simpl never.
#[local] Arguments slice_from : simpl never.

(** ** Dynamic axes *)

Lemma symbolic_axis_fold_lookup (shape : list Axis) :
  ∀ (k : nat) (acc : gmap nat string) (j : nat),
    fold_left symbolic_axis_step (enumerate_from k shape) acc !! j =
    match (if decide (k ≤ j) then shape !! (j - k) else None) with
    | Some (AxStr s) => Some s
    | _ => acc !! j
    end.
Proof.
  induction shape as [|x shape IH]; intros k acc j; simpl.
  - by destruct (decide (k ≤ j)).
  - rewrite IH. unfold symbolic_axis_step. simpl.
    destruct (decide (S k ≤ j)) as [Hle|Hnle].
    + rewrite decide_True by lia.
      replace (j - k) with (S (j - S k)) by lia. simpl.
      destruct (shape !! (j - S k)) as [[n|s]|]; [|done|];
        (destruct x; [done|]; rewrite lookup_insert_ne; [done|lia]).
    + destruct (decide (k ≤ j)) as [Hle|Hnle'].
      * assert (j = k) as -> by lia. rewrite Nat.sub_diag. simpl.
        destruct x; [done|]. by rewrite lookup_insert_eq.
      * destruct x; [done|]. rewrite lookup_insert_ne; [done|lia].
Qed.

Lemma symbolic_axis_lookup (shape : list Axis) (i : nat) (s : string) :
  symbolic_axis_of shape !! i = Some s ↔ shape !! i = Some (AxStr s).
Proof.
  unfold symbolic_axis_of, enumerate. rewrite symbolic_axis_fold_lookup.
  rewrite decide_True by lia. rewrite Nat.sub_0_r, lookup_empty.
  destruct (shape !! i) as [[n|s']|]; naive_solver.
Qed.

Lemma symbolic_axis_size (shape : list Axis) :
  size (symbolic_axis_of shape) ≠ 0 ↔ ∃ i s, shape !! i = Some (AxStr s).
Proof.
  rewrite map_size_ne_0_lookup. split.
  - intros [i [s H]]. exists i, s. by apply symbolic_axis_lookup.
  - intros [i [s H]]. exists i. rewrite (proj2 (symbolic_axis_lookup _ _ _) H). by eexists.
Qed.

Lemma dynamic_axes_fold_other (l : list IODesc) :
  ∀ (acc : gmap string (gmap nat string)) (name : string),
    name ∉ name_ <$> l →
    fold_left dynamic_axes_step l acc !! name = acc !! name.
Proof.
  induction l as [|io l IH]; intros acc name Hnot; simpl; [done|].
  rewrite fmap_cons, not_elem_of_cons in Hnot. destruct Hnot as [Hne Hnot].
  rewrite IH by done. unfold dynamic_axes_step.
  case_bool_decide; [|done]. by rewrite lookup_insert_ne.
Qed.

Lemma dynamic_axes_fold_member (l : list IODesc) :
  ∀ (acc : gmap string (gmap nat string)) (io : IODesc),
    NoDup (name_ <$> l) → io ∈ l →
    fold_left dynamic_axes_step l acc !! name_ io =
    if bool_decide (size (symbolic_axis_of (shape_ io)) ≠ 0)
    then Some (symbolic_axis_of (shape_ io))
    else acc !! name_ io.
Proof.
  induction l as [|x l IH]; intros acc io Hnd Hin; simpl.
  - by apply elem_of_nil in Hin.
  - rewrite fmap_cons in Hnd. apply NoDup_cons in Hnd as [Hx Hnd].
    apply elem_of_cons in Hin as [->|Hin].
    + rewrite dynamic_axes_fold_other by done. unfold dynamic_axes_step.
      case_bool_decide; [|done]. by rewrite lookup_insert_eq.
    + rewrite IH by done. case_bool_decide; [done|].
      unfold dynamic_axes_step. case_bool_decide; [|done].
      rewrite lookup_insert_ne; [done|].
      intros Heq. apply Hx. rewrite Heq. by apply list_elem_of_fmap_2.
Qed.

Lemma dynamic_axes_fold_source (l : list IODesc) :
  ∀ (acc : gmap string (gmap nat string)) (name : string) (axes : gmap nat string),
    fold_left dynamic_axes_step l acc !! name = Some axes →
    acc !! name = Some axes ∨ ∃ io, io ∈ l ∧ name_ io = name.
Proof.
  induction l as [|x l IH]; intros acc name axes H; simpl in *; [by left|].
  apply IH in H as [H|[io [Hin Hn]]].
  - unfold dynamic_axes_step in H. case_bool_decide; [|by left].
    destruct (decide (name_ x = name)) as [Heq|Hne].
    + right. exists x. split; [left|done].
    + rewrite lookup_insert_ne in H by done. by left.
  - right. exists io. split; [by right|done].
Qed.

Lemma dynamic_axes_of_fold (model_desc : ModelDesc) :
  dynamic_axes_of model_desc =
  fold_left dynamic_axes_step (inputs_ model_desc ++ outputs_ model_desc) ∅.
Proof. unfold dynamic_axes_of. by rewrite fold_left_app. Qed.


(** ** Sample inputs *)

Lemma comprehension_tensors (device : string) (ts : list Tensor) :
  comprehension (to_device device) (PTensor <$> ts) = Ok (tensor_to device <$> ts).
Proof. induction ts as [|t ts IH]; csimpl; [done|]. by rewrite IH. Qed.

Lemma comprehension_snd {A B} (f : A → result B) (l : list (nat * A)) :
  comprehension (λ ix, f ix.2) l = comprehension f l.*2.
Proof. induction l as [|x l IH]; csimpl; [done|]. by rewrite IH. Qed.

Lemma filter_enumerate_take {A} (n : nat) (l : list A) :
  ∀ k, (filter (λ ix : nat * A, ix.1 < n) (enumerate_from k l)).*2 = take (n - k) l.
Proof.
  induction l as [|x l IH]; intros k; simpl.
  - by rewrite take_nil.
  - rewrite filter_cons. simpl. destruct (decide (k < n)) as [Hlt|Hge].
    + rewrite fmap_cons, IH. simpl.
      replace (n - k) with (S (n - S k)) by lia. done.
    + rewrite IH. replace (n - S k) with 0 by lia.
      replace (n - k) with 0 by lia. done.
Qed.

Lemma gather_sequence (model_desc : ModelDesc) (device : string) (l : list pydata) :
  gather_sample_inputs model_desc device (PList l) =
    comprehension (to_device device) (take (length (inputs_ model_desc)) l) ∧
  gather_sample_inputs model_desc device (PTuple l) =
    comprehension (to_device device) (take (length (inputs_ model_desc)) l).
Proof.
  unfold gather_sample_inputs; simpl.
  rewrite (comprehension_snd (to_device device)).
  unfold enumerate. rewrite filter_enumerate_take, Nat.sub_0_r. done.
Qed.

Lemma gather_mapping (device : string) (d : gmap string pydata) (ios : list IODesc) :
  (∀ io, io ∈ ios → ∃ t, d !! name_ io = Some (PTensor t)) →
  ∃ samples,
    comprehension
      (λ k, match d !! name_ k with
            | Some v => to_device device v
            | None => Raise (KeyError (name_ k))
            end) ios = Ok samples ∧
    length samples = length ios ∧
    ∀ i io, ios !! i = Some io →
      ∃ t, d !! name_ io = Some (PTensor t) ∧ samples !! i = Some (tensor_to device t).
Proof.
  induction ios as [|io ios IH]; intros Hall; simpl.
  - exists []. repeat split. intros i io Hi. by rewrite lookup_nil in Hi.
  - destruct (Hall io) as [t Ht]; [left|].
    destruct IH as [samples [Heq [Hlen Hnth]]].
    { intros io' Hin. apply Hall. by right. }
    rewrite Ht. simpl. rewrite Heq. simpl.
    exists (tensor_to device t :: samples). split; [done|]. split; [simpl; lia|].
    intros [|i] io' Hi; simpl in *.
    + injection Hi as <-. by exists t.
    + by apply Hnth.
Qed.

(** ** Output dtypes *)

Lemma set_model_desc_same (w : World) :
  set_model_desc
    {| inputs_ := inputs_ (w_model_desc w); outputs_ := outputs_ (w_model_desc w) |} w = w.
Proof. destruct w as [a [i o] f e p]. done. Qed.

Lemma record_dtypes_loop_tensors (ts : list Tensor) :
  ∀ (k m : nat) (w : World),
    ∃ outs,
      record_dtypes_loop (zip (PTensor <$> ts) (seq k m)) w =
        (set_model_desc
           {| inputs_ := inputs_ (w_model_desc w); outputs_ := outs |} w, Ok tt) ∧
      ∀ i, outs !! i =
           if decide (k ≤ i < k + m) then
             match ts !! (i - k) with
             | Some t => with_dtype (t_dtype t) <$> outputs_ (w_model_desc w) !! i
             | None => outputs_ (w_model_desc w) !! i
             end
           else outputs_ (w_model_desc w) !! i.
Proof.
  induction ts as [|t ts IH]; intros k m w.
  - exists (outputs_ (w_model_desc w)). simpl. rewrite set_model_desc_same.
    split; [done|]. intros i. by case_decide.
  - destruct m as [|m].
    + exists (outputs_ (w_model_desc w)). simpl. rewrite set_model_desc_same.
      split; [done|]. intros i. rewrite decide_False by lia. done.
    + rewrite fmap_cons. change (seq k (S m)) with (k :: seq (S k) m).
      cbn [zip_with record_dtypes_loop getattr_dtype].
      unfold bind at 1 2. unfold lift, set_output_dtype, modify.
      match goal with |- context [record_dtypes_loop _ ?w1] =>
        destruct (IH (S k) m w1) as [outs [Hrun Hlook]] end.
      exists outs. split.
      * rewrite Hrun. destruct w; done.
      * intros i. rewrite Hlook. cbn [set_model_desc w_model_desc outputs_].
        destruct (decide (i = k)) as [->|Hne].
        -- rewrite decide_False by lia. rewrite decide_True by lia.
           rewrite Nat.sub_diag. by rewrite list_lookup_alter_eq.
        -- rewrite list_lookup_alter_ne by done.
           destruct (decide (S k ≤ i < S k + m)) as [Hin|Hout].
           ++ rewrite decide_True by lia.
              replace (i - k) with (S (i - S k)) by lia. done.
           ++ rewrite decide_False by lia. done.
Qed.

Lemma record_dtypes_loop_frame (pairs : list (pydata * nat)) :
  ∀ w, let r := record_dtypes_loop pairs w in
       w_attrs r.1 = w_attrs w ∧
       w_forward_calls r.1 = w_forward_calls w ∧
       w_export_calls r.1 = w_export_calls w ∧
       w_passes r.1 = w_passes w ∧
       inputs_ (w_model_desc r.1) = inputs_ (w_model_desc w) ∧
       length (outputs_ (w_model_desc r.1)) = length (outputs_ (w_model_desc w)).
Proof.
  induction pairs as [|[v i] pairs IH]; intros w; simpl; [done|].
  unfold bind at 1. unfold lift. destruct (getattr_dtype v) as [dt|e]; simpl; [|done].
  unfold bind at 1. simpl.
  match goal with |- context [record_dtypes_loop _ ?w1] =>
    destruct (IH w1) as (Ha & Hf & He & Hp & Hi & Hl) end.
  simpl in *. rewrite length_alter in Hl. done.
Qed.


(** ** Removing the wrapper prefix *)

Lemma rename_initializers_snoc (inits : list TensorProto) (n : TensorProto) :
  rename_initializers (inits ++ [n]) =
  rename_initializer_step (rename_initializers inits) n.
Proof. unfold rename_initializers. by rewrite fold_left_app. Qed.

Lemma rename_initializers_list (inits : list TensorProto) :
  (rename_initializers inits).2 =
  (λ n, if startswith (tp_name n) "model_."
        then with_name (slice_from 7 (tp_name n)) n else n) <$> inits.
Proof.
  induction inits as [|n inits IH] using rev_ind; [done|].
  rewrite rename_initializers_snoc, fmap_app. unfold rename_initializer_step.
  csimpl. destruct (startswith (tp_name n) "model_."); cbn [snd fst].
  - rewrite lookup_insert_eq, IH. done.
  - by rewrite IH.
Qed.

Lemma rename_initializers_dict (inits : list TensorProto) (k : string) :
  (rename_initializers inits).1 !! k =
  if decide (k ∈ tp_name <$> inits ∧ startswith k "model_." = true)
  then Some (slice_from 7 k) else None.
Proof.
  induction inits as [|n inits IH] using rev_ind.
  - rewrite decide_False; [done|]. intros [Hin _]. by apply elem_of_nil in Hin.
  - rewrite rename_initializers_snoc, fmap_app. unfold rename_initializer_step.
    destruct (startswith (tp_name n) "model_.") eqn:Hsw; cbn [fst snd].
    + destruct (decide (tp_name n = k)) as [<-|Hne].
      * rewrite lookup_insert_eq, decide_True; [done|].
        split; [|done]. apply elem_of_app. right. by left.
      * rewrite lookup_insert_ne, IH by done.
        apply decide_ext. rewrite elem_of_app. csimpl.
        rewrite list_elem_of_singleton. intuition congruence.
    + rewrite IH. apply decide_ext. rewrite elem_of_app. csimpl.
      rewrite list_elem_of_singleton. split; [intuition|].
      intros [[Hin| ->] Hk]; [done|congruence].
Qed.

Lemma rewrite_input_at_lookup (d : gmap string string) (l : list string) (k j : nat) :
  rewrite_input_at d l k !! j =
  if decide (j = k) then (λ name, default name (d !! name)) <$> l !! j else l !! j.
Proof.
  unfold rewrite_input_at. destruct (decide (j = k)) as [->|Hne].
  - destruct (l !! k) as [name|] eqn:Hk; [|by rewrite Hk].
    destruct (d !! name) as [new|] eqn:Hd; csimpl; rewrite ?Hd; [|by rewrite Hk].
    rewrite list_lookup_insert_eq; [done|]. by eapply lookup_lt_Some.
  - destruct (l !! k) as [name|]; [|done].
    destruct (d !! name); [|done]. by rewrite list_lookup_insert_ne.
Qed.

Lemma rewrite_inputs_lookup (d : gmap string string) (m : nat) :
  ∀ (k : nat) (l : list string) (j : nat),
    fold_left (rewrite_input_at d) (seq k m) l !! j =
    if decide (k ≤ j < k + m)
    then (λ name, default name (d !! name)) <$> l !! j else l !! j.
Proof.
  induction m as [|m IH]; intros k l j; simpl.
  - rewrite decide_False by lia. done.
  - rewrite IH, rewrite_input_at_lookup.
    destruct (decide (j = k)) as [->|Hne].
    + rewrite decide_False by lia. rewrite decide_True by lia. done.
    + destruct (decide (S k ≤ j < S k + m)).
      * rewrite decide_True by lia. done.
      * rewrite decide_False by lia. done.
Qed.

Lemma rewrite_node_inputs (d : gmap string string) (n : NodeProto) :
  n_input (rewrite_node d n) = (λ name, default name (d !! name)) <$> n_input n.
Proof.
  apply list_eq. intros j. unfold rewrite_node. cbn [n_input].
  rewrite rewrite_inputs_lookup, list_lookup_fmap.
  destruct (decide (0 ≤ j < 0 + length (n_input n))) as [Hin|Hout]; [done|].
  rewrite lookup_ge_None_2 by lia. done.
Qed.

Lemma visit_node_lookup (d : gmap string string) (nodes : list NodeProto) (i j : nat) :
  visit_node d nodes i !! j =
  if decide (j = i) then rewrite_node d <$> nodes !! j else nodes !! j.
Proof.
  unfold visit_node. destruct (decide (j = i)) as [->|Hne].
  - destruct (nodes !! i) as [n|] eqn:Hi; [|by rewrite Hi].
    rewrite list_lookup_insert_eq; [done|]. by eapply lookup_lt_Some.
  - destruct (nodes !! i); [|done]. by rewrite list_lookup_insert_ne.
Qed.

Lemma visit_nodes_lookup (d : gmap string string) (order : list nat) :
  ∀ (nodes : list NodeProto) (j : nat),
    NoDup order →
    visit_nodes d order nodes !! j =
    if decide (j ∈ order) then rewrite_node d <$> nodes !! j else nodes !! j.
Proof.
  induction order as [|i order IH]; intros nodes j Hnd;
    unfold visit_nodes; cbn [fold_left].
  - rewrite decide_False; [done|]. apply not_elem_of_nil.
  - apply NoDup_cons in Hnd as [Hi Hnd].
    fold (visit_nodes d order (visit_node d nodes i)).
    rewrite IH, visit_node_lookup by done.
    destruct (decide (j = i)) as [->|Hne].
    + rewrite decide_False by done. rewrite decide_True; [done|]. by left.
    + destruct (decide (j ∈ order)) as [Hin|Hout].
      * rewrite decide_True; [done|]. by right.
      * rewrite decide_False; [done|]. rewrite not_elem_of_cons. done.
Qed.

Lemma visit_nodes_any_order (d : gmap string string) (order : list nat)
    (nodes : list NodeProto) :
  order ≡ₚ seq 0 (length nodes) →
  visit_nodes d order nodes = rewrite_node d <$> nodes.
Proof.
  intros Hperm. apply list_eq. intros j.
  rewrite visit_nodes_lookup, list_lookup_fmap.
  - destruct (decide (j ∈ order)) as [Hin|Hout]; [done|].
    rewrite lookup_ge_None_2; [done|].
    destruct (decide (length nodes ≤ j)); [done|]. exfalso. apply Hout.
    rewrite Hperm. apply elem_of_seq. lia.
  - rewrite Hperm. apply NoDup_seq.
Qed.

(** ** Initializer check *)

Lemma check_initializer_names_ok (model : Module) (onnx_model : ModelProto) :
  check_initializer_names model onnx_model = Ok tt ↔
  ∀ p, p ∈ (parameters_to_check model).*1 →
       p ∈ tp_name <$> initializer (graph onnx_model).
Proof.
  unfold check_initializer_names, assert_. case_bool_decide as Hsub.
  - split; [|done]. intros _ p Hp.
    apply (elem_of_list_to_set (C := gset string)). apply Hsub.
    by apply elem_of_list_to_set.
  - split; [done|]. intros Hall. exfalso. apply Hsub. intros p Hp.
    apply elem_of_list_to_set. apply Hall. by apply elem_of_list_to_set in Hp.
Qed.


(** ** The export pipeline *)

Lemma record_output_dtypes_frame (items : list pydata) (w : World) :
  let r := record_output_dtypes items w in
  w_attrs r.1 = w_attrs w ∧
  w_forward_calls r.1 = w_forward_calls w ∧
  w_export_calls r.1 = w_export_calls w ∧
  w_passes r.1 = w_passes w ∧
  inputs_ (w_model_desc r.1) = inputs_ (w_model_desc w) ∧
  length (outputs_ (w_model_desc r.1)) = length (outputs_ (w_model_desc w)).
Proof.
  unfold record_output_dtypes, bind, gets. cbn beta iota.
  apply record_dtypes_loop_frame.
Qed.

(** The statements of [convert_model_loss_fn_to_onnx] one after the other,
    each exception ending the run in the world reached so far. *)
Lemma convert_steps (model : Module) (loss_fn : pyobj) (device : string)
    (inputs : pydata) (opset_version : Z) (flag : bool) (w : World) :
  convert_model_loss_fn_to_onnx model loss_fn device inputs opset_version flag w =
  match gather_sample_inputs (w_model_desc w) device inputs with
  | Raise e => (w, Raise e)
  | Ok sample_inputs =>
  match wrap_for_input_match model loss_fn (name_ <$> inputs_ (w_model_desc w)) with
  | Raise e => (w, Raise e)
  | Ok wrapped =>
  match forward wrapped false sample_inputs with
  | Raise e => (log_forward sample_inputs w, Raise e)
  | Ok out =>
  match sample_output_items out with
  | Raise e => (log_forward sample_inputs w, Raise e)
  | Ok sample_outputs =>
  match record_output_dtypes sample_outputs (log_forward sample_inputs w) with
  | (w1, Raise e) => (w1, Raise e)
  | (w1, Ok _) =>
  let call :=
    {| ex_model := wrapped;
       ex_model_training := true;
       ex_args := sample_inputs;
       ex_input_names := name_ <$> inputs_ (w_model_desc w);
       ex_output_names := name_ <$> outputs_ (w_model_desc w);
       ex_opset_version := opset_version;
       ex_dynamic_axes := dynamic_axes_of (w_model_desc w);
       ex_retain_param_name := true;
       ex_example_outputs := sample_outputs;
       ex_do_constant_folding := false;
       ex_training := other_export_options.1;
       ex_enable_onnx_checker := other_export_options.2 |} in
  match torch_onnx_export call with
  | Raise e => (log_export call w1, Raise e)
  | Ok buffer =>
  match onnx_load_model_from_string buffer with
  | Raise e => (log_export call w1, Raise e)
  | Ok onnx_model =>
  match check_initializer_names wrapped (remove_wrapper_prefix onnx_model) with
  | Raise e => (log_export call w1, Raise e)
  | Ok _ =>
      if flag
      then (log_pass InternalPass (log_export call w1),
            run_postprocess (remove_wrapper_prefix onnx_model))
      else (log_export call w1, Ok (remove_wrapper_prefix onnx_model))
  end end end end end end end end.
Proof.
  unfold convert_model_loss_fn_to_onnx, call_forward, call_export,
    call_run_postprocess, bind, lift, gets, modify, ret.
  cbn beta iota.
  destruct (gather_sample_inputs _ _ _); [|done].
  destruct (wrap_for_input_match _ _ _); [|done].
  destruct (forward _ _ _); [|done].
  destruct (sample_output_items _); [|done].
  destruct (record_output_dtypes _ _) as [w1 [[]|e]]; [|done].
  cbn zeta.
  destruct (torch_onnx_export _); [|done].
  destruct (onnx_load_model_from_string _); [|done].
  destruct (check_initializer_names _ _) as [[]|e]; [|done].
  by destruct flag.
Qed.

Lemma record_output_dtypes_tensors (ts : list Tensor) (w : World) :
  ∃ outs,
    record_output_dtypes (PTensor <$> ts) w =
      (set_model_desc
         {| inputs_ := inputs_ (w_model_desc w); outputs_ := outs |} w, Ok tt) ∧
    ∀ i io, outputs_ (w_model_desc w) !! i = Some io →
      outs !! i = Some (match ts !! i with
                        | Some t => with_dtype (t_dtype t) io
                        | None => io
                        end).
Proof.
  unfold record_output_dtypes, bind, gets. cbn beta iota.
  destruct (record_dtypes_loop_tensors ts 0 (length (outputs_ (w_model_desc w))) w)
    as [outs [Hrun Hlook]].
  exists outs. split; [done|]. intros i io Hi.
  rewrite Hlook, Nat.sub_0_r, Hi. apply lookup_lt_Some in Hi as Hlt.
  rewrite decide_True by lia. by destruct (ts !! i).
Qed.


(** ** The trainer object *)

Lemma bind_getattr_self {A} (name : string) (k : pyobj → M A) (w : World) :
  bind (getattr_self name) k w =
  match w_attrs w !! name with
  | Some v => k v w
  | None =>
      if bool_decide (name ∈ ORTTrainer_methods)
      then k (ObjMethod name) w
      else (w, Raise (AttributeError name))
  end.
Proof.
  unfold bind, getattr_self. destruct (w_attrs w !! name); [done|].
  by case_bool_decide.
Qed.

(** Line 271 never reaches the call: [inputs] is neither a local variable of
    the method (its parameters are [self] and [input]) nor a name of the
    module. *)
Lemma init_export_raises (input : list pydata) (w : World) :
  ∃ e, init_export input w = (w, Raise e).
Proof.
  unfold init_export. rewrite bind_getattr_self.
  assert (∀ f, ∃ e,
    (a1 <- getattr_self "_torch_model" ;;
     a2 <- getattr_self "loss_fn" ;;
     a3 <- getattr_self "model_desc" ;;
     a4 <- ret (ObjDevice "cpu") ;;
     a5 <- lookup_name [("self", ObjTrainer); ("input", ObjData (PTuple input))] "inputs" ;;
     k1 <- getattr_self "opset_version" ;;
     k2 <- getattr_self "_enable_internal_postprocess" ;;
     r <- call_object f [a1; a2; a3; a4; a5]
            [("opset_version", k1); ("_enable_internal_postprocess", k2)] ;;
     setattr_self "onnx_model" r) w = (w, Raise e)) as Hrest.
  { intros f. rewrite !bind_getattr_self.
    destruct (w_attrs w !! "_torch_model"); [|by eexists].
    rewrite !bind_getattr_self.
    destruct (w_attrs w !! "loss_fn"); [|by eexists].
    rewrite !bind_getattr_self.
    destruct (w_attrs w !! "model_desc"); [|by eexists].
    by eexists. }
  destruct (w_attrs w !! "convert_model_loss_fn_to_onnx"); [apply Hrest|].
  replace (bool_decide ("convert_model_loss_fn_to_onnx" ∈ ORTTrainer_methods))
    with true by by vm_compute.
  apply Hrest.
Qed.

(** The lazy build, in any state of the trainer: it calls neither the
    forward pass, nor the exporter, nor a postprocessing pass, and it writes
    no attribute other than [torch_model_]. *)
Lemma init_onnx_model_frame (input : list pydata) (w : World) :
  let r := _init_onnx_model_ input w in
  w_forward_calls r.1 = w_forward_calls w ∧
  w_export_calls r.1 = w_export_calls w ∧
  w_passes r.1 = w_passes w ∧
  w_model_desc r.1 = w_model_desc w ∧
  ∀ name, name ≠ "torch_model_" → w_attrs r.1 !! name = w_attrs w !! name.
Proof.
  cbv zeta. destruct (_init_onnx_model_ input w) as [w' res] eqn:Hr. cbn [fst].
  unfold _init_onnx_model_ in Hr. rewrite bind_getattr_self in Hr.
  destruct (w_attrs w !! "_onnx_model") as [onnx_model|];
    [|by injection Hr as <- _].
  destruct (negb (is_None onnx_model)); [by injection Hr as <- _|].
  rewrite bind_getattr_self in Hr.
  destruct (w_attrs w !! "_torch_model") as [torch_model|];
    [|by injection Hr as <- _].
  destruct (negb (is_None torch_model)); [|by injection Hr as <- _].
  unfold bind at 1 in Hr. unfold init_move_to_cpu in Hr.
  rewrite bind_getattr_self in Hr.
  destruct (w_attrs w !! "torch_model_") as [tm|]; [|by injection Hr as <- _].
  destruct tm; try by injection Hr as <- _.
  unfold setattr_self, modify in Hr. unfold bind at 1 in Hr.
  match type of Hr with context [init_export input ?w1] =>
    destruct (init_export_raises input w1) as [e He]; rewrite He in Hr end.
  injection Hr as <- _. cbn. repeat split. intros name Hne. by rewrite lookup_insert_ne.
Qed.

Lemma train_step_frame (input : list pydata) (kwargs : list (string * pydata))
    (w : World) :
  let r := train_step input kwargs w in
  w_forward_calls r.1 = w_forward_calls w ∧
  w_export_calls r.1 = w_export_calls w ∧
  w_passes r.1 = w_passes w ∧
  w_model_desc r.1 = w_model_desc w ∧
  ∀ name, name ≠ "torch_model_" → w_attrs r.1 !! name = w_attrs w !! name.
Proof.
  cbv zeta. destruct (train_step input kwargs w) as [w' res] eqn:Hr. cbn [fst].
  unfold train_step in Hr. rewrite bind_getattr_self in Hr.
  destruct (w_attrs w !! "_onnx_model") as [onnx_model|];
    [|by injection Hr as <- _].
  pose proof (init_onnx_model_frame input w) as Hframe. cbv zeta in Hframe.
  unfold bind in Hr.
  destruct (is_None onnx_model); [|by injection Hr as <- _].
  destruct (_init_onnx_model_ input w) as [w1 [[]|e]];
    injection Hr as <- _; exact Hframe.
Qed.

(** A trainer whose attributes are those [__init__] sets for a PyTorch
    model: the first statement of the lazy build fails. *)
Lemma train_step_native (input : list pydata) (kwargs : list (string * pydata))
    (w : World) (m : Module) :
  w_attrs w !! "_onnx_model" = Some (ObjData PNone) →
  w_attrs w !! "_torch_model" = Some (ObjModule m) →
  w_attrs w !! "torch_model_" = None →
  _init_onnx_model_ input w = (w, Raise (AttributeError "torch_model_")) ∧
  train_step input kwargs w = (w, Raise (AttributeError "torch_model_")).
Proof.
  intros Honnx Htorch Hmiss.
  assert (_init_onnx_model_ input w = (w, Raise (AttributeError "torch_model_"))) as Hinit.
  { unfold _init_onnx_model_. rewrite bind_getattr_self, Honnx. cbn [is_None negb].
    rewrite bind_getattr_self, Htorch. cbn [is_None negb].
    unfold bind at 1. unfold init_move_to_cpu. rewrite bind_getattr_self, Hmiss.
    by replace (bool_decide ("torch_model_" ∈ ORTTrainer_methods)) with false
      by by vm_compute. }
  split; [done|].
  unfold train_step. rewrite bind_getattr_self, Honnx. cbn [is_None].
  unfold bind. by rewrite Hinit.
Qed.

(** The two places that apply the internal pass: the end of the conversion
    when its flag is set (lines 258-259), and the statements that follow the
    conversion in the lazy build (lines 274-275). *)
Lemma convert_applies_internal_pass (model : Module) (loss_fn : pyobj)
    (device : string) (inputs : pydata) (opset_version : Z) (w w' : World)
    (g : ModelProto) :
  convert_model_loss_fn_to_onnx model loss_fn device inputs opset_version true w
    = (w', Ok g) →
  w_passes w' = w_passes w ++ [InternalPass].
Proof.
  rewrite convert_steps. intros Hrun.
  destruct (gather_sample_inputs _ _ _) as [si|]; [|done].
  destruct (wrap_for_input_match _ _ _); [|done].
  destruct (forward _ _ _); [|done].
  destruct (sample_output_items _) as [items|]; [|done].
  pose proof (record_output_dtypes_frame items (log_forward si w)) as Hframe.
  destruct (record_output_dtypes _ _) as [w1 [[]|]]; [|done].
  cbn [fst] in Hframe. destruct Hframe as (_ & _ & _ & Hp & _).
  cbn zeta in Hrun.
  destruct (torch_onnx_export _); [|done].
  destruct (onnx_load_model_from_string _); [|done].
  destruct (check_initializer_names _ _) as [[]|]; [|done].
  injection Hrun as <- _. cbn. by rewrite Hp.
Qed.

Lemma init_postprocess_applies_internal_pass (w : World) (e : pyobj) (g : ModelProto) :
  w_attrs w !! "_enable_internal_postprocess" = Some e →
  truthy e = true →
  w_attrs w !! "onnx_model_" = Some (ObjModelProto g) →
  w_attrs w !! "_extra_postprocess" = Some (ObjData PNone) →
  w_attrs w !! "_verify_fully_optimized_model" = None →
  w_passes (init_postprocess w).1 = w_passes w ++ [InternalPass].
Proof.
  intros Hflag Htrue Hgraph Hextra Hverify.
  unfold init_postprocess. rewrite bind_getattr_self, Hflag, Htrue.
  unfold bind at 1. rewrite bind_getattr_self, Hgraph.
  unfold call_run_postprocess, setattr_self, modify, lift, bind at 1 2.
  destruct (run_postprocess g) as [g'|]; [|done].
  rewrite bind_getattr_self. cbn [w_attrs set_attr log_pass].
  rewrite lookup_insert_ne by done. rewrite Hextra. cbn [truthy].
  unfold bind at 1. unfold ret at 1.
  rewrite bind_getattr_self. cbn [w_attrs set_attr log_pass].
  rewrite lookup_insert_ne by done. rewrite Hverify.
  by replace (bool_decide ("_verify_fully_optimized_model" ∈ ORTTrainer_methods))
    with false by by vm_compute.
Qed.


(** ** The claims about the export function *)

(** C4 (amended). For every model description whose tensor names are
    pairwise distinct across the inputs and the outputs, the dynamic-axis
    map has, for each description of an input or output with at least one
    [str] dimension, an entry under the tensor's name that maps exactly the
    indices of the [str] dimensions to their names; a tensor without a [str]
    dimension has no entry; and every entry belongs to some tensor. *)
Theorem dynamic_axes_distinct_names (model_desc : ModelDesc) :
  NoDup (name_ <$> inputs_ model_desc ++ outputs_ model_desc) →
  (∀ io, io ∈ inputs_ model_desc ++ outputs_ model_desc →
     ((∃ i s, shape_ io !! i = Some (AxStr s)) →
      ∃ axes, dynamic_axes_of model_desc !! name_ io = Some axes ∧
              ∀ i s, axes !! i = Some s ↔ shape_ io !! i = Some (AxStr s)) ∧
     ((∀ i s, shape_ io !! i ≠ Some (AxStr s)) →
      dynamic_axes_of model_desc !! name_ io = None)) ∧
  (∀ name axes, dynamic_axes_of model_desc !! name = Some axes →
     ∃ io, io ∈ inputs_ model_desc ++ outputs_ model_desc ∧ name_ io = name).
Proof.
  intros Hnd. rewrite dynamic_axes_of_fold. split.
  - intros io Hin. rewrite (dynamic_axes_fold_member _ _ _ Hnd Hin). split.
    + intros Hsym. rewrite bool_decide_eq_true_2 by by apply symbolic_axis_size.
      eexists. split; [done|]. apply symbolic_axis_lookup.
    + intros Hnone. rewrite bool_decide_eq_false_2; [done|].
      rewrite symbolic_axis_size. intros (i & s & His). by eapply Hnone.
  - intros name axes Hlook.
    apply dynamic_axes_fold_source in Hlook as [Hempty|Hio]; [|done].
    by rewrite lookup_empty in Hempty.
Qed.

(** C5. A single tensor is treated as the one-element list holding it; a
    dict that has a tensor under every declared input name yields one sample
    per declared input, in the declared order, each looked up by name and
    moved to the device; a list or tuple is cut to the number of declared
    inputs; any other value makes the conversion raise the
    unexpected-input-type [RuntimeError], the world being unchanged (no
    forward pass, no export). *)
Theorem sample_inputs_by_container (model_desc : ModelDesc) (device : string) :
  (∀ t, gather_sample_inputs model_desc device (PTensor t) =
        gather_sample_inputs model_desc device (PList [PTensor t])) ∧
  (∀ d, (∀ io, io ∈ inputs_ model_desc → ∃ t, d !! name_ io = Some (PTensor t)) →
        ∃ samples,
          gather_sample_inputs model_desc device (PDict d) = Ok samples ∧
          length samples = length (inputs_ model_desc) ∧
          ∀ i io, inputs_ model_desc !! i = Some io →
            ∃ t, d !! name_ io = Some (PTensor t) ∧
                 samples !! i = Some (tensor_to device t)) ∧
  (∀ l ts, take (length (inputs_ model_desc)) l = PTensor <$> ts →
        gather_sample_inputs model_desc device (PList l) = Ok (tensor_to device <$> ts) ∧
        gather_sample_inputs model_desc device (PTuple l) = Ok (tensor_to device <$> ts)) ∧
  (∀ inputs,
     is_tensor inputs = false → (∀ d, inputs ≠ PDict d) →
     (∀ l, inputs ≠ PList l) → (∀ l, inputs ≠ PTuple l) →
     gather_sample_inputs model_desc device inputs
       = Raise (RuntimeError unexpected_input_type) ∧
     ∀ model loss_fn opset_version flag w,
       w_model_desc w = model_desc →
       convert_model_loss_fn_to_onnx model loss_fn device inputs opset_version flag w
         = (w, Raise (RuntimeError unexpected_input_type))).
Proof.
  split; [done|]. split; [|split].
  - intros d Hall. unfold gather_sample_inputs. cbn [is_tensor].
    by apply gather_mapping.
  - intros l ts Htake.
    destruct (gather_sequence model_desc device l) as [-> ->].
    rewrite Htake. split; apply comprehension_tensors.
  - intros inputs Htensor Hdict Hlist Htuple.
    assert (gather_sample_inputs model_desc device inputs
            = Raise (RuntimeError unexpected_input_type)) as Hraise.
    { unfold gather_sample_inputs. rewrite Htensor.
      destruct inputs as [| | | | |l|l|d]; try done;
        [by destruct (Hlist l)|by destruct (Htuple l)|by destruct (Hdict d)]. }
    split; [done|].
    intros model loss_fn opset_version flag w <-.
    by rewrite convert_steps, Hraise.
Qed.


(** C6. After the removal of the wrapper prefix, every initializer whose
    name was [model_.] followed by [rest] is named [rest]; every node input
    equal to the old name of such an initializer is replaced by that name
    without the prefix; all other initializer names and node inputs, and
    everything else in the nodes, are unchanged; and visiting the nodes in
    any order of their positions gives the same nodes. *)
Theorem wrapper_prefix_removed (onnx_model : ModelProto) :
  let g := graph onnx_model in
  let g' := graph (remove_wrapper_prefix onnx_model) in
  length (initializer g') = length (initializer g) ∧
  (∀ i n, initializer g !! i = Some n →
     ∃ n', initializer g' !! i = Some n' ∧ tp_data n' = tp_data n ∧
           (∀ rest, tp_name n = "model_." +:+ rest → tp_name n' = rest) ∧
           (startswith (tp_name n) "model_." = false → tp_name n' = tp_name n)) ∧
  length (node g') = length (node g) ∧
  (∀ j nd, node g !! j = Some nd →
     ∃ nd', node g' !! j = Some nd' ∧
            n_op_type nd' = n_op_type nd ∧ n_output nd' = n_output nd ∧
            length (n_input nd') = length (n_input nd) ∧
            ∀ i name, n_input nd !! i = Some name →
              (∀ rest, name ∈ tp_name <$> initializer g →
                       name = "model_." +:+ rest →
                       n_input nd' !! i = Some rest) ∧
              (name ∉ tp_name <$> initializer g ∨ startswith name "model_." = false →
               n_input nd' !! i = Some name)) ∧
  (∀ order, order ≡ₚ seq 0 (length (node g)) →
     visit_nodes (rename_initializers (initializer g)).1 order (node g) = node g').
Proof.
  intros g g'. subst g g'. unfold remove_wrapper_prefix. cbn [graph initializer node].
  rewrite rename_initializers_list.
  rewrite (visit_nodes_any_order _ (seq 0 _)) by done.
  rewrite !length_fmap. split; [done|]. split; [|split; [done|split]].
  - intros i n Hi. rewrite list_lookup_fmap, Hi. csimpl.
    eexists. split; [done|]. split; [|split].
    + by destruct (startswith (tp_name n) "model_.").
    + intros rest Hname. rewrite Hname, startswith_app. cbn [with_name tp_name].
      apply (slice_from_app "model_.").
    + by intros ->.
  - intros j nd Hj. rewrite list_lookup_fmap, Hj. csimpl.
    eexists. split; [done|]. rewrite rewrite_node_inputs, length_fmap.
    do 3 (split; [done|]). intros i name Hname.
    rewrite list_lookup_fmap, Hname. csimpl.
    rewrite rename_initializers_dict. split.
    + intros rest Hin ->. rewrite decide_True.
      * cbn [default]. by rewrite (slice_from_app "model_.").
      * split; [done|]. apply startswith_app.
    + intros Hother. rewrite decide_False; [done|].
      intros [Hin Hsw]. destruct Hother as [Hnot|Hnsw]; [done|congruence].
  - intros order Hperm. by apply visit_nodes_any_order.
Qed.

(** C7 (amended). With [source] the module whose parameters are checked (the
    [model_] attribute of the wrapped model, or the model itself when it has
    no such attribute): if every parameter name of [source] is the name of
    an initializer of the graph, the check passes; otherwise it raises an
    [AssertionError] whose message is one fixed text, which asks to report a
    bug and is the same whatever parameters are missing. *)
Theorem initializer_check (model source : Module) (onnx_model : ModelProto) :
  model_ model = Some source ∨ (model_ model = None ∧ model = source) →
  ((∀ p, p ∈ (named_parameters source).*1 →
         p ∈ tp_name <$> initializer (graph onnx_model)) →
   check_initializer_names model onnx_model = Ok tt) ∧
  (¬ (∀ p, p ∈ (named_parameters source).*1 →
           p ∈ tp_name <$> initializer (graph onnx_model)) →
   check_initializer_names model onnx_model
     = Raise (AssertionError initializer_mismatch)).
Proof.
  intros Hsrc.
  assert (parameters_to_check model = named_parameters source) as Hpar.
  { unfold parameters_to_check. by destruct Hsrc as [->|[-> ->]]. }
  split.
  - intros Hall. apply check_initializer_names_ok. by rewrite Hpar.
  - intros Hnot.
    destruct (check_initializer_names model onnx_model) as [[]|e] eqn:Hc.
    + exfalso. apply Hnot. rewrite <- Hpar. by apply check_initializer_names_ok.
    + unfold check_initializer_names, assert_ in Hc. by case_bool_decide.
Qed.

(** C9. Every call of the exporter made by the conversion comes after one
    forward pass on the gathered sample inputs and receives: the wrapped
    model in training mode, the sample inputs, the input and output names
    of the description in its order, the dynamic-axis map, the training
    option ([True], or [TrainingMode.TRAINING] from version 1.6.0),
    [do_constant_folding=False], and the sample outputs of that forward
    pass as example outputs. A conversion calls the exporter at most once. *)
Theorem export_invocation (model : Module) (loss_fn : pyobj) (device : string)
    (inputs : pydata) (opset_version : Z) (flag : bool) (w w' : World)
    (r : result ModelProto) :
  convert_model_loss_fn_to_onnx model loss_fn device inputs opset_version flag w = (w', r) →
  w_export_calls w' = w_export_calls w ∨
  ∃ sample_inputs wrapped out sample_outputs call,
    gather_sample_inputs (w_model_desc w) device inputs = Ok sample_inputs ∧
    wrap_for_input_match model loss_fn (name_ <$> inputs_ (w_model_desc w)) = Ok wrapped ∧
    forward wrapped false sample_inputs = Ok out ∧
    sample_output_items out = Ok sample_outputs ∧
    w_forward_calls w' = w_forward_calls w ++ [sample_inputs] ∧
    w_export_calls w' = w_export_calls w ++ [call] ∧
    ex_model call = wrapped ∧
    ex_model_training call = true ∧
    ex_args call = sample_inputs ∧
    ex_input_names call = name_ <$> inputs_ (w_model_desc w) ∧
    ex_output_names call = name_ <$> outputs_ (w_model_desc w) ∧
    ex_dynamic_axes call = dynamic_axes_of (w_model_desc w) ∧
    ex_training call =
      (if LooseVersion_ge torch_version "1.6.0"
       then TrainingMode_TRAINING else TrainingBool true) ∧
    ex_do_constant_folding call = false ∧
    ex_example_outputs call = sample_outputs ∧
    ex_opset_version call = opset_version ∧
    ex_retain_param_name call = true.
Proof.
  rewrite convert_steps. intros Hrun.
  destruct (gather_sample_inputs _ _ _) as [si|e] eqn:Hsi;
    [|left; by injection Hrun as <- _].
  destruct (wrap_for_input_match _ _ _) as [wrapped|e] eqn:Hwrap;
    [|left; by injection Hrun as <- _].
  destruct (forward _ _ _) as [out|e] eqn:Hfw;
    [|left; by injection Hrun as <- _].
  destruct (sample_output_items _) as [items|e] eqn:Hitems;
    [|left; by injection Hrun as <- _].
  pose proof (record_output_dtypes_frame items (log_forward si w)) as Hframe.
  destruct (record_output_dtypes _ _) as [w1 [[]|e]] eqn:Hrec;
    cbn [fst snd] in Hframe; destruct Hframe as (Ha & Hf & He & Hp & Hi & Hl);
    [|left; by injection Hrun as <- _].
  right. cbn zeta in Hrun.
  match type of Hrun with context [torch_onnx_export ?c0] => set (call := c0) in * end.
  exists si, wrapped, out, items, call.
  assert (w' = log_export call w1 ∨ w' = log_pass InternalPass (log_export call w1))
    as Hw'.
  { destruct (torch_onnx_export call); [|left; by injection Hrun as <- _].
    destruct (onnx_load_model_from_string _); [|left; by injection Hrun as <- _].
    destruct (check_initializer_names _ _) as [[]|]; [|left; by injection Hrun as <- _].
    destruct flag; injection Hrun as <- _; [by right|by left]. }
  do 4 (split; [done|]).
  split; [destruct Hw' as [-> | ->]; cbn; by rewrite Hf|].
  split; [destruct Hw' as [-> | ->]; cbn; by rewrite He|].
  subst call. cbn. unfold other_export_options. cbn. done.
Qed.

(** C10. When the forward pass of the conversion returns tensors (a tuple
    or list of them, or one tensor), the conversion goes on to the exporter
    without an error from the pairing and the description keeps its inputs
    and its number of outputs. The output at position [i] keeps its name
    and shape; its dtype becomes the dtype of the sample output at
    position [i] when there is one, and stays as it was (unset, if it was
    unset) when there is none. Sample outputs beyond the declared outputs
    have no effect. *)
Theorem output_dtypes_paired (model : Module) (loss_fn : pyobj) (device : string)
    (inputs : pydata) (opset_version : Z) (flag : bool) (w : World)
    (sample_inputs : list Tensor) (wrapped : Module) (out : pydata)
    (ts : list Tensor) :
  gather_sample_inputs (w_model_desc w) device inputs = Ok sample_inputs →
  wrap_for_input_match model loss_fn (name_ <$> inputs_ (w_model_desc w)) = Ok wrapped →
  forward wrapped false sample_inputs = Ok out →
  out = PTuple (PTensor <$> ts) ∨ out = PList (PTensor <$> ts) ∨
    (∃ t, out = PTensor t ∧ ts = [t]) →
  let w' := (convert_model_loss_fn_to_onnx model loss_fn device inputs
               opset_version flag w).1 in
  length (w_export_calls w') = S (length (w_export_calls w)) ∧
  inputs_ (w_model_desc w') = inputs_ (w_model_desc w) ∧
  length (outputs_ (w_model_desc w')) = length (outputs_ (w_model_desc w)) ∧
  ∀ i io, outputs_ (w_model_desc w) !! i = Some io →
    ∃ io', outputs_ (w_model_desc w') !! i = Some io' ∧
      name_ io' = name_ io ∧
      shape_ io' = shape_ io ∧
      dtype_ io' = match ts !! i with
                   | Some t => Some (t_dtype t)
                   | None => dtype_ io
                   end.
Proof.
  intros Hsi Hwrap Hfw Hout w'. subst w'.
  rewrite convert_steps, Hsi, Hwrap, Hfw.
  assert (sample_output_items out = Ok (PTensor <$> ts)) as ->.
  { destruct Hout as [-> | [-> | [t [-> ->]]]]; done. }
  destruct (record_output_dtypes_tensors ts (log_forward sample_inputs w))
    as [outs [Hrun Hlook]].
  pose proof (record_output_dtypes_frame (PTensor <$> ts) (log_forward sample_inputs w))
    as Hframe.
  rewrite Hrun in Hframe |- *. cbn [fst snd] in Hframe.
  destruct Hframe as (_ & _ & He & _ & _ & Hl). cbn in He, Hl. cbn zeta.
  match goal with |- context [torch_onnx_export ?c0] => set (call := c0) end.
  match goal with |- context [log_export call ?w0] => set (w1 := w0) in * end.
  assert (∀ i io, outputs_ (w_model_desc w) !! i = Some io →
            ∃ io', outs !! i = Some io' ∧
              name_ io' = name_ io ∧
              shape_ io' = shape_ io ∧
              dtype_ io' = match ts !! i with
                           | Some t => Some (t_dtype t)
                           | None => dtype_ io
                           end) as Hfields.
  { intros i io Hi. eexists. split; [exact (Hlook i io Hi)|].
    by destruct (ts !! i). }
  assert (∀ w2 : World * result ModelProto,
            w2.1 = log_export call w1 ∨ w2.1 = log_pass InternalPass (log_export call w1) →
            length (w_export_calls w2.1) = S (length (w_export_calls w)) ∧
            inputs_ (w_model_desc w2.1) = inputs_ (w_model_desc w) ∧
            length (outputs_ (w_model_desc w2.1)) = length (outputs_ (w_model_desc w)) ∧
            ∀ i io, outputs_ (w_model_desc w) !! i = Some io →
              ∃ io', outputs_ (w_model_desc w2.1) !! i = Some io' ∧
                name_ io' = name_ io ∧
                shape_ io' = shape_ io ∧
                dtype_ io' = match ts !! i with
                             | Some t => Some (t_dtype t)
                             | None => dtype_ io
                             end) as Hend.
  { intros w2 [-> | ->]; cbn; rewrite length_app; cbn;
      (split; [lia|]); (split; [done|]); (split; [done|]); exact Hfields. }
  apply Hend.
  destruct (torch_onnx_export call); [|by left].
  destruct (onnx_load_model_from_string _); [|by left].
  destruct (check_initializer_names _ _) as [[]|]; [|by left].
  destruct flag; [by right|by left].
Qed.


(** ** The claims about the trainer object *)

(** What [__init__] leaves in the object for a PyTorch model. *)
Lemma ORTTrainer_native (m : Module) (model_desc optim_config loss_fn options : pyobj)
    (w : World) :
  ORTTrainer (ObjModule m) model_desc optim_config loss_fn options = Ok w →
  w_attrs w !! "_onnx_model" = Some (ObjData PNone) ∧
  w_attrs w !! "_torch_model" = Some (ObjModule m) ∧
  w_attrs w !! "torch_model_" = None ∧
  w_forward_calls w = [] ∧ w_export_calls w = [] ∧ w_passes w = [].
Proof.
  unfold ORTTrainer, __init__, bind, lift, assert_, setattr_self, modify, raise.
  cbn [is_None negb isinstance_Module].
  destruct (isinstance_dict model_desc); [|done].
  destruct (isinstance_OptimizerConfig optim_config); [|done].
  destruct (is_None loss_fn || _); [|done].
  destruct (is_None options || _); [|done].
  destruct (is_None loss_fn || true); [|done].
  cbn beta iota.
  destruct (_ORTTrainerModelDesc model_desc); [|done].
  destruct (ORTTrainerOptions options); [|done].
  intros [= <-]. cbn. by simplify_map_eq.
Qed.

(** What [__init__] leaves in the object for an ONNX model. *)
Lemma ORTTrainer_onnx (g : ModelProto) (model_desc optim_config loss_fn options : pyobj)
    (w : World) :
  ORTTrainer (ObjModelProto g) model_desc optim_config loss_fn options = Ok w →
  w_attrs w !! "_onnx_model" = Some (ObjModelProto g).
Proof.
  unfold ORTTrainer, __init__, bind, lift, assert_, setattr_self, modify, raise.
  cbn [is_None negb isinstance_Module isinstance_ModelProto].
  destruct (isinstance_dict model_desc); [|done].
  destruct (isinstance_OptimizerConfig optim_config); [|done].
  destruct (is_None loss_fn || _); [|done].
  destruct (is_None options || _); [|done].
  cbn beta iota. destruct (is_None loss_fn); [|done]. cbn beta iota.
  destruct (_ORTTrainerModelDesc model_desc); [|done].
  destruct (ORTTrainerOptions options); [|done].
  intros [= <-]. cbn. by simplify_map_eq.
Qed.


(** C1 (what the code does). For a trainer built from a PyTorch module, each
    of any number of sequential [train_step] calls raises [AttributeError]
    for [torch_model_] at the first statement of the lazy build; the
    exporter is never called and no graph is stored, so the trainer stays
    as [__init__] left it. *)
Theorem train_steps_native_never_export (m : Module)
    (model_desc optim_config loss_fn options : pyobj) (w : World)
    (calls : list (list pydata)) :
  ORTTrainer (ObjModule m) model_desc optim_config loss_fn options = Ok w →
  (train_steps calls w).1 = w ∧
  (train_steps calls w).2 = (λ _, Raise (AttributeError "torch_model_")) <$> calls ∧
  w_export_calls (train_steps calls w).1 = [] ∧
  w_attrs (train_steps calls w).1 !! "_onnx_model" = Some (ObjData PNone).
Proof.
  intros Hnew. apply ORTTrainer_native in Hnew as (Honnx & Htorch & Hmiss & _ & Hexp & _).
  assert ((train_steps calls w).1 = w ∧
          (train_steps calls w).2
            = (λ _, Raise (AttributeError "torch_model_")) <$> calls) as [Hw Hr].
  { induction calls as [|input calls [IHw IHr]]; [done|].
    cbn [train_steps].
    destruct (train_step_native input [] w m Honnx Htorch Hmiss) as [_ ->].
    cbn [fst snd]. rewrite IHw, IHr. done. }
  rewrite Hw. done.
Qed.

(** C8 (what the code does). In every state of the trainer the lazy build
    applies no postprocessing pass: it ends before the conversion is
    called. For a trainer holding a PyTorch module and no ONNX model it
    ends with an exception. *)
Theorem lazy_build_applies_no_pass (input : list pydata) (w : World) (m : Module) :
  w_attrs w !! "_onnx_model" = Some (ObjData PNone) →
  w_attrs w !! "_torch_model" = Some (ObjModule m) →
  w_passes (_init_onnx_model_ input w).1 = w_passes w ∧
  w_export_calls (_init_onnx_model_ input w).1 = w_export_calls w ∧
  ∃ e, (_init_onnx_model_ input w).2 = Raise e.
Proof.
  intros Honnx Htorch.
  destruct (init_onnx_model_frame input w) as (_ & Hexp & Hpass & _).
  do 2 (split; [done|]).
  unfold _init_onnx_model_. rewrite bind_getattr_self, Honnx. cbn [is_None negb].
  rewrite bind_getattr_self, Htorch. cbn [is_None negb].
  unfold bind at 1. unfold init_move_to_cpu. rewrite bind_getattr_self.
  destruct (w_attrs w !! "torch_model_") as [tm|];
    [|replace (bool_decide ("torch_model_" ∈ ORTTrainer_methods)) with false
        by (by vm_compute); by eexists].
  destruct tm; try by eexists.
  unfold setattr_self, modify. unfold bind at 1.
  match goal with |- context [init_export input ?w1] =>
    destruct (init_export_raises input w1) as [e ->] end.
  by eexists.
Qed.

(** C2 (what the code does). [save_as_onnx] persists nothing. A trainer
    built from an ONNX model holds that graph, and a [train_step] on it
    succeeds; [save_as_onnx] called afterwards returns [None] with the
    trainer and every log as they were, whatever the path: the stored graph
    is not read and no collaborator is called. In any other state too, also
    before the first step, the call returns [None] and raises nothing. *)
Theorem save_as_onnx_persists_nothing (g : ModelProto)
    (model_desc optim_config loss_fn options : pyobj) (w : World)
    (input : list pydata) (path : string) :
  ORTTrainer (ObjModelProto g) model_desc optim_config loss_fn options = Ok w →
  w_attrs w !! "_onnx_model" = Some (ObjModelProto g) ∧
  train_step input [] w = (w, Ok (ObjData PNone)) ∧
  save_as_onnx path (train_step input [] w).1 = (w, Ok (ObjData PNone)) ∧
  ∀ w0 : World, save_as_onnx path w0 = (w0, Ok (ObjData PNone)).
Proof.
  intros Hnew. apply ORTTrainer_onnx in Hnew as Honnx.
  assert (train_step input [] w = (w, Ok (ObjData PNone))) as Hstep.
  { unfold train_step. by rewrite bind_getattr_self, Honnx. }
  split; [done|]. split; [done|]. split; [by rewrite Hstep|done].
Qed.


(** ** Further properties of the dynamic axes *)

Lemma dynamic_axes_fold_last (l : list IODesc) :
  ∀ (acc : gmap string (gmap nat string)) (name : string),
    fold_left dynamic_axes_step l acc !! name =
    match last (filter (λ io, name_ io = name ∧ size (symbolic_axis_of (shape_ io)) ≠ 0) l) with
    | Some io => Some (symbolic_axis_of (shape_ io))
    | None => acc !! name
    end.
Proof.
  induction l as [|x l IH] using rev_ind; intros acc name; [done|].
  rewrite fold_left_app, filter_app. cbn [fold_left].
  rewrite filter_cons, filter_nil. unfold dynamic_axes_step at 1.
  destruct (decide (name_ x = name ∧ size (symbolic_axis_of (shape_ x)) ≠ 0))
    as [[Hname Hsize]|Hnot].
  - rewrite last_snoc, bool_decide_eq_true_2 by done.
    by rewrite Hname, lookup_insert_eq.
  - rewrite app_nil_r, <- IH. case_bool_decide as Hsize; [|done].
    rewrite lookup_insert_ne; [done|]. intros Hname. by apply Hnot.
Qed.

(** X1. The dynamic-axis entry of a name is written by the last description of
    that name that has a [str] dimension, inputs before outputs: an output
    replaces the entry of an input of the same name. *)
Theorem dynamic_axes_last_wins (model_desc : ModelDesc) (pre post : list IODesc)
    (io : IODesc) :
  inputs_ model_desc ++ outputs_ model_desc = pre ++ io :: post →
  (∃ i s, shape_ io !! i = Some (AxStr s)) →
  (∀ io', io' ∈ post → name_ io' = name_ io →
          ∀ i s, shape_ io' !! i ≠ Some (AxStr s)) →
  ∃ axes, dynamic_axes_of model_desc !! name_ io = Some axes ∧
          ∀ i s, axes !! i = Some s ↔ shape_ io !! i = Some (AxStr s).
Proof.
  intros Hsplit Hsym Hpost.
  rewrite dynamic_axes_of_fold, Hsplit, dynamic_axes_fold_last.
  rewrite filter_app, filter_cons, decide_True
    by (split; [done|by apply symbolic_axis_size]).
  assert (filter (λ io0, name_ io0 = name_ io
                         ∧ size (symbolic_axis_of (shape_ io0)) ≠ 0) post = []) as ->.
  { destruct (filter _ post) as [|io' rest] eqn:Hf; [done|]. exfalso.
    assert (io' ∈ filter (λ io0, name_ io0 = name_ io
                                 ∧ size (symbolic_axis_of (shape_ io0)) ≠ 0) post) as Hin
      by (rewrite Hf; left).
    apply list_elem_of_filter in Hin as [[Hname Hsize] Hin].
    apply symbolic_axis_size in Hsize as (i & s & His).
    by eapply Hpost. }
  rewrite last_snoc. eexists. split; [done|]. apply symbolic_axis_lookup.
Qed.

(** X2. Every entry of the dynamic-axis map is non-empty and is the set of [str]
    dimensions of a described tensor of that name; a name none of whose
    descriptions has a [str] dimension has no entry. *)
Theorem dynamic_axes_entries (model_desc : ModelDesc) (name : string) :
  (∀ axes, dynamic_axes_of model_desc !! name = Some axes →
     axes ≠ ∅ ∧
     ∃ io, io ∈ inputs_ model_desc ++ outputs_ model_desc ∧ name_ io = name ∧
           ∀ i s, axes !! i = Some s ↔ shape_ io !! i = Some (AxStr s)) ∧
  ((∀ io, io ∈ inputs_ model_desc ++ outputs_ model_desc → name_ io = name →
          ∀ i s, shape_ io !! i ≠ Some (AxStr s)) →
   dynamic_axes_of model_desc !! name = None).
Proof.
  rewrite dynamic_axes_of_fold, dynamic_axes_fold_last, lookup_empty.
  destruct (last _) as [io|] eqn:Hlast.
  - apply last_Some_elem_of, list_elem_of_filter in Hlast as [[Hname Hsize] Hin].
    split.
    + intros axes [= <-]. split.
      * intros Hempty. apply Hsize. by rewrite Hempty, map_size_empty.
      * exists io. split; [done|]. split; [done|]. apply symbolic_axis_lookup.
    + intros Hnone. exfalso.
      apply symbolic_axis_size in Hsize as (i & s & His). by eapply Hnone.
  - split; [done|done].
Qed.

(** ** Further properties of the sample inputs *)

Lemma comprehension_Ok {A B} (f : A → result B) (l : list A) (ys : list B) :
  comprehension f l = Ok ys → Forall2 (λ x y, f x = Ok y) l ys.
Proof.
  revert ys. induction l as [|x l IH]; intros ys Hrun; cbn in Hrun.
  - injection Hrun as <-. constructor.
  - destruct (f x) as [y|] eqn:Hx; [|done]. cbn in Hrun.
    destruct (comprehension f l) as [ys'|]; [|done]. cbn in Hrun.
    injection Hrun as <-. constructor; [done|]. by apply IH.
Qed.

Lemma comprehension_raise {A B} (f : A → result B) (pre post : list A) (x : A)
    (ys : list B) (e : exn) :
  Forall2 (λ a y, f a = Ok y) pre ys → f x = Raise e →
  comprehension f (pre ++ x :: post) = Raise e.
Proof.
  intros Hpre Hx. induction Hpre as [|a y pre ys Ha _ IH]; cbn.
  - by rewrite Hx.
  - by rewrite Ha, IH.
Qed.

Lemma to_device_Ok (device : string) (v : pydata) (t : Tensor) :
  to_device device v = Ok t → t_device t = device ∧ ∃ t0, v = PTensor t0 ∧ t = tensor_to device t0.
Proof. destruct v; try done. intros [= <-]. eauto. Qed.

(** X3. Whatever the container, the samples that are gathered are all on the
    requested device and there are never more of them than declared inputs;
    from a dict there are exactly as many. *)
Theorem sample_inputs_on_device (model_desc : ModelDesc) (device : string)
    (inputs : pydata) (samples : list Tensor) :
  gather_sample_inputs model_desc device inputs = Ok samples →
  Forall (λ t, t_device t = device) samples ∧
  length samples ≤ length (inputs_ model_desc) ∧
  (∀ d, inputs = PDict d → length samples = length (inputs_ model_desc)).
Proof.
  intros Hrun.
  assert (∀ l, comprehension (to_device device) (take (length (inputs_ model_desc)) l)
               = Ok samples →
               Forall (λ t, t_device t = device) samples ∧
               length samples ≤ length (inputs_ model_desc)) as Hseq.
  { intros l Hl. apply comprehension_Ok in Hl. split.
    - apply list.Forall_forall. intros t Ht.
      apply list_elem_of_lookup in Ht as [i Hi].
      destruct (Forall2_lookup_r _ _ _ _ _ Hl Hi) as (v & _ & Hv).
      by apply to_device_Ok in Hv as [? _].
    - apply Forall2_length in Hl. rewrite <- Hl, length_take. lia. }
  destruct inputs as [| | | |t|l|l|d]; try done.
  - destruct (gather_sequence model_desc device [PTensor t]) as [Heq _].
    assert (gather_sample_inputs model_desc device (PTensor t)
            = gather_sample_inputs model_desc device (PList [PTensor t])) as Hsame by done.
    rewrite Hsame, Heq in Hrun. destruct (Hseq _ Hrun). by repeat split.
  - destruct (gather_sequence model_desc device l) as [Heq _].
    rewrite Heq in Hrun. destruct (Hseq _ Hrun). by repeat split.
  - destruct (gather_sequence model_desc device l) as [_ Heq].
    rewrite Heq in Hrun. destruct (Hseq _ Hrun). by repeat split.
  - unfold gather_sample_inputs in Hrun. cbn [is_tensor] in Hrun.
    apply comprehension_Ok in Hrun. apply Forall2_length in Hrun as Hlen.
    split; [|split; [lia|by intros]].
    apply list.Forall_forall. intros t Ht.
    apply list_elem_of_lookup in Ht as [i Hi].
    destruct (Forall2_lookup_r _ _ _ _ _ Hrun Hi) as (io & _ & Hio).
    cbn in Hio. destruct (d !! name_ io); [|done].
    by apply to_device_Ok in Hio as [? _].
Qed.

(** X4. A dict that lacks a declared input name makes the conversion raise
    [KeyError] for the first such name, the declared inputs before it being
    present as tensors; nothing has been called by then. *)
Theorem sample_inputs_missing_key (model_desc : ModelDesc) (device : string)
    (d : gmap string pydata) (pre post : list IODesc) (io : IODesc) :
  inputs_ model_desc = pre ++ io :: post →
  (∀ io', io' ∈ pre → ∃ t, d !! name_ io' = Some (PTensor t)) →
  d !! name_ io = None →
  gather_sample_inputs model_desc device (PDict d) = Raise (KeyError (name_ io)) ∧
  ∀ model loss_fn opset_version flag w,
    w_model_desc w = model_desc →
    convert_model_loss_fn_to_onnx model loss_fn device (PDict d) opset_version flag w
      = (w, Raise (KeyError (name_ io))).
Proof.
  intros Hsplit Hpre Hmiss.
  assert (gather_sample_inputs model_desc device (PDict d) = Raise (KeyError (name_ io)))
    as Hraise.
  { unfold gather_sample_inputs. cbn [is_tensor]. rewrite Hsplit.
    destruct (gather_mapping device d pre Hpre) as (ys & Hys & _).
    apply comprehension_Ok in Hys.
    eapply comprehension_raise; [exact Hys|]. cbn. by rewrite Hmiss. }
  split; [done|]. intros model loss_fn opset_version flag w <-.
  by rewrite convert_steps, Hraise.
Qed.

(** X5. An element that is not a tensor among the first elements of a list or
    tuple, up to the number of declared inputs, makes the conversion raise
    [AttributeError] for [to]; nothing has been called by then. *)
Theorem sample_inputs_not_tensor (model_desc : ModelDesc) (device : string)
    (ts : list Tensor) (v : pydata) (rest : list pydata) :
  length ts < length (inputs_ model_desc) →
  is_tensor v = false →
  gather_sample_inputs model_desc device (PList ((PTensor <$> ts) ++ v :: rest))
    = Raise (AttributeError "to") ∧
  gather_sample_inputs model_desc device (PTuple ((PTensor <$> ts) ++ v :: rest))
    = Raise (AttributeError "to") ∧
  ∀ model loss_fn opset_version flag w,
    w_model_desc w = model_desc →
    convert_model_loss_fn_to_onnx model loss_fn device
      (PList ((PTensor <$> ts) ++ v :: rest)) opset_version flag w
      = (w, Raise (AttributeError "to")).
Proof.
  intros Hlen Hv.
  assert (comprehension (to_device device)
            (take (length (inputs_ model_desc)) ((PTensor <$> ts) ++ v :: rest))
          = Raise (AttributeError "to")) as Hraise.
  { rewrite take_app, length_fmap.
    rewrite take_ge by (rewrite length_fmap; lia).
    replace (length (inputs_ model_desc) - length ts)
      with (S (length (inputs_ model_desc) - S (length ts))) by lia.
    cbn [take].
    eapply (comprehension_raise _ _ _ _ (tensor_to device <$> ts)).
    - apply Forall2_fmap. apply Forall_Forall2_diag. by apply list.Forall_forall.
    - by destruct v. }
  destruct (gather_sequence model_desc device ((PTensor <$> ts) ++ v :: rest))
    as [Hl Ht].
  rewrite Hl, Ht. do 2 (split; [done|]).
  intros model loss_fn opset_version flag w <-.
  by rewrite convert_steps, Hl, Hraise.
Qed.

(** ** Further properties of the conversion *)

Lemma record_dtypes_loop_names (pairs : list (pydata * nat)) :
  ∀ w w' r, record_dtypes_loop pairs w = (w', r) →
    name_ <$> outputs_ (w_model_desc w') = name_ <$> outputs_ (w_model_desc w) ∧
    shape_ <$> outputs_ (w_model_desc w') = shape_ <$> outputs_ (w_model_desc w).
Proof.
  induction pairs as [|[v i] pairs IH]; intros w w' r Hr; cbn [record_dtypes_loop] in Hr.
  - by injection Hr as <- _.
  - unfold bind at 1 in Hr. unfold lift in Hr.
    destruct (getattr_dtype v) as [dt|e]; [|by injection Hr as <- _].
    unfold bind at 1 in Hr. unfold set_output_dtype, modify in Hr.
    apply IH in Hr as [Hn Hs]. rewrite Hn, Hs.
    cbn [w_model_desc set_model_desc outputs_].
    split; apply list_eq; intros j; rewrite !list_lookup_fmap, list_lookup_alter;
      case_decide; try done.
    all: subst; by destruct (outputs_ (w_model_desc w) !! _).
Qed.

Lemma dynamic_axes_fold_names_shapes (l l' : list IODesc) :
  name_ <$> l = name_ <$> l' → shape_ <$> l = shape_ <$> l' →
  ∀ acc, fold_left dynamic_axes_step l acc = fold_left dynamic_axes_step l' acc.
Proof.
  revert l'. induction l as [|x l IH]; intros [|x' l'] Hn Hs acc; try done.
  csimpl in Hn. csimpl in Hs. injection Hn as Hnx Hn. injection Hs as Hsx Hs.
  cbn [fold_left].
  assert (dynamic_axes_step acc x = dynamic_axes_step acc x') as ->
    by (unfold dynamic_axes_step; by rewrite Hnx, Hsx).
  by apply IH.
Qed.

(** The worlds a conversion can end in: the one it started from, that one
    with the forward pass logged, and then the worlds after the dtype loop
    and after the exporter call. *)
Lemma convert_world_cases (model : Module) (loss_fn : pyobj) (device : string)
    (inputs : pydata) (opset_version : Z) (flag : bool) (w : World) :
  let r := convert_model_loss_fn_to_onnx model loss_fn device inputs opset_version flag w in
  r.1 = w ∨
  ∃ si, r.1 = log_forward si w ∨
    ∃ items call,
      let w1 := (record_output_dtypes items (log_forward si w)).1 in
      r.1 = w1 ∨ r.1 = log_export call w1 ∨ r.1 = log_pass InternalPass (log_export call w1).
Proof.
  cbv zeta. rewrite convert_steps.
  destruct (gather_sample_inputs _ _ _) as [si|]; [|by left].
  destruct (wrap_for_input_match _ _ _); [|by left].
  right. exists si.
  destruct (forward _ _ _); [|by left].
  destruct (sample_output_items _) as [items|]; [|by left].
  right. exists items.
  destruct (record_output_dtypes items (log_forward si w)) as [w1 [[]|]] eqn:Hrec;
    cbn [fst]; [|by exists (mkExportCall model false [] [] [] 0 ∅ false [] false
                              (TrainingBool false) None); left].
  match goal with |- context [torch_onnx_export ?c] => exists c end.
  destruct (torch_onnx_export _); [|by right; left].
  destruct (onnx_load_model_from_string _); [|by right; left].
  destruct (check_initializer_names _ _) as [[]|]; [|by right; left].
  destruct flag; [by right; right|by right; left].
Qed.

(** X6. A conversion, however it ends, leaves the attributes of the trainer, the
    inputs of the description and the names and shapes of its outputs as
    they were (only [dtype_] is written), so the dynamic axes and the names
    of the description are the same after as before. *)
Theorem conversion_keeps_description (model : Module) (loss_fn : pyobj)
    (device : string) (inputs : pydata) (opset_version : Z) (flag : bool)
    (w : World) :
  let w' := (convert_model_loss_fn_to_onnx model loss_fn device inputs
               opset_version flag w).1 in
  w_attrs w' = w_attrs w ∧
  inputs_ (w_model_desc w') = inputs_ (w_model_desc w) ∧
  name_ <$> outputs_ (w_model_desc w') = name_ <$> outputs_ (w_model_desc w) ∧
  shape_ <$> outputs_ (w_model_desc w') = shape_ <$> outputs_ (w_model_desc w) ∧
  dynamic_axes_of (w_model_desc w') = dynamic_axes_of (w_model_desc w).
Proof.
  intros w'.
  assert (w_attrs w' = w_attrs w ∧
          inputs_ (w_model_desc w') = inputs_ (w_model_desc w) ∧
          name_ <$> outputs_ (w_model_desc w') = name_ <$> outputs_ (w_model_desc w) ∧
          shape_ <$> outputs_ (w_model_desc w') = shape_ <$> outputs_ (w_model_desc w))
    as (Ha & Hi & Hn & Hs).
  { subst w'.
    destruct (convert_world_cases model loss_fn device inputs opset_version flag w)
      as [-> | (si & [-> | (items & call & Hcases)])]; [done|done|].
    cbv zeta in Hcases.
    pose proof (record_output_dtypes_frame items (log_forward si w)) as Hframe.
    cbv zeta in Hframe. destruct Hframe as (Ha & _ & _ & _ & Hi & _).
    assert (name_ <$> outputs_ (w_model_desc
              (record_output_dtypes items (log_forward si w)).1)
            = name_ <$> outputs_ (w_model_desc w) ∧
            shape_ <$> outputs_ (w_model_desc
              (record_output_dtypes items (log_forward si w)).1)
            = shape_ <$> outputs_ (w_model_desc w)) as [Hn Hs].
    { unfold record_output_dtypes, bind, gets. cbn beta iota.
      eapply (record_dtypes_loop_names _ (log_forward si w)).
      apply surjective_pairing. }
    destruct Hcases as [-> | [-> | ->]]; done. }
  do 4 (split; [done|]).
  unfold dynamic_axes_of. rewrite Hi. by apply dynamic_axes_fold_names_shapes.
Qed.

(** X7. When the wrapper or the sample forward pass fails, or the forward pass
    returns a value that cannot be iterated, the conversion raises without
    calling the exporter: the world is unchanged after a wrapper failure,
    and only has the forward pass logged in the other cases. *)
Theorem conversion_stops_before_export (model : Module) (loss_fn : pyobj)
    (device : string) (inputs : pydata) (opset_version : Z) (flag : bool)
    (w : World) (sample_inputs : list Tensor) :
  gather_sample_inputs (w_model_desc w) device inputs = Ok sample_inputs →
  let run := convert_model_loss_fn_to_onnx model loss_fn device inputs
               opset_version flag w in
  let wrap := wrap_for_input_match model loss_fn (name_ <$> inputs_ (w_model_desc w)) in
  (∀ e, wrap = Raise e → run = (w, Raise e)) ∧
  (∀ wrapped e, wrap = Ok wrapped → forward wrapped false sample_inputs = Raise e →
     run = (log_forward sample_inputs w, Raise e)) ∧
  (∀ wrapped out, wrap = Ok wrapped → forward wrapped false sample_inputs = Ok out →
     out = PNone ∨ (∃ b, out = PBool b) ∨ (∃ z, out = PInt z) →
     ∃ msg, run = (log_forward sample_inputs w, Raise (TypeError msg))).
Proof.
  intros Hsi run wrap. subst run wrap. rewrite convert_steps, Hsi.
  split; [|split].
  - by intros e ->.
  - by intros wrapped e -> ->.
  - intros wrapped out -> -> [-> | [[b ->] | [z ->]]]; by eexists.
Qed.

Lemma record_dtypes_loop_stop (ts : list Tensor) :
  ∀ (k m : nat) (w : World) (v : pydata) (rest : list pydata),
    length ts < m → is_tensor v = false →
    record_dtypes_loop (zip ((PTensor <$> ts) ++ v :: rest) (seq k m)) w =
    ((record_dtypes_loop (zip (PTensor <$> ts) (seq k m)) w).1,
     Raise (AttributeError "dtype")).
Proof.
  induction ts as [|t ts IH]; intros k m w v rest Hlen Hv;
    (destruct m as [|m]; [cbn in Hlen; lia|]).
  - change (seq k (S m)) with (k :: seq (S k) m). cbn.
    unfold bind, lift. by destruct v.
  - rewrite fmap_cons. change (seq k (S m)) with (k :: seq (S k) m).
    cbn [app zip_with record_dtypes_loop getattr_dtype].
    unfold bind at 1 2 3 4. unfold lift, set_output_dtype, modify.
    apply IH; [cbn in Hlen; lia|done].
Qed.

Lemma zip_seq_app_ge {A} (a b : list A) :
  ∀ k m, m ≤ length a → zip (a ++ b) (seq k m) = zip a (seq k m).
Proof.
  induction a as [|x a IH]; intros k m Hm.
  - cbn in Hm. assert (m = 0) as -> by lia. by destruct b.
  - destruct m as [|m]; [done|]. cbn. f_equal. apply IH. cbn in Hm. lia.
Qed.

(** X8. A sample output that is not a tensor, at a position that has a declared
    output, stops the conversion with [AttributeError] for [dtype] before the
    exporter is called; the declared outputs before that position have
    already received their dtypes and keep them. *)
Theorem output_dtypes_stop_at_non_tensor (model : Module) (loss_fn : pyobj)
    (device : string) (inputs : pydata) (opset_version : Z) (flag : bool) (w : World)
    (sample_inputs : list Tensor) (wrapped : Module) (out : pydata)
    (ts : list Tensor) (v : pydata) (rest : list pydata) :
  gather_sample_inputs (w_model_desc w) device inputs = Ok sample_inputs →
  wrap_for_input_match model loss_fn (name_ <$> inputs_ (w_model_desc w)) = Ok wrapped →
  forward wrapped false sample_inputs = Ok out →
  out = PTuple ((PTensor <$> ts) ++ v :: rest) ∨
    out = PList ((PTensor <$> ts) ++ v :: rest) →
  is_tensor v = false →
  length ts < length (outputs_ (w_model_desc w)) →
  let r := convert_model_loss_fn_to_onnx model loss_fn device inputs
             opset_version flag w in
  r.2 = Raise (AttributeError "dtype") ∧
  w_export_calls r.1 = w_export_calls w ∧
  ∀ i io, outputs_ (w_model_desc w) !! i = Some io →
    outputs_ (w_model_desc r.1) !! i =
      Some (match ts !! i with
            | Some t => with_dtype (t_dtype t) io
            | None => io
            end).
Proof.
  intros Hsi Hwrap Hfw Hout Hv Hlen r. subst r.
  rewrite convert_steps, Hsi, Hwrap, Hfw.
  assert (sample_output_items out = Ok ((PTensor <$> ts) ++ v :: rest)) as ->
    by (by destruct Hout as [-> | ->]).
  assert (record_output_dtypes ((PTensor <$> ts) ++ v :: rest) (log_forward sample_inputs w)
          = ((record_output_dtypes (PTensor <$> ts) (log_forward sample_inputs w)).1,
             Raise (AttributeError "dtype"))) as ->.
  { unfold record_output_dtypes, bind, gets. cbn beta iota.
    by apply record_dtypes_loop_stop. }
  destruct (record_output_dtypes_tensors ts (log_forward sample_inputs w))
    as [outs [-> Hlook]].
  cbn. split; [done|]. split; [done|]. exact Hlook.
Qed.

(** X9. Sample outputs beyond the declared outputs are never inspected: whatever
    they are, the conversion goes on to the exporter, which receives all the
    sample outputs as example outputs. *)
Theorem surplus_outputs_not_inspected (model : Module) (loss_fn : pyobj)
    (device : string) (inputs : pydata) (opset_version : Z) (flag : bool) (w : World)
    (sample_inputs : list Tensor) (wrapped : Module)
    (ts : list Tensor) (rest : list pydata) :
  gather_sample_inputs (w_model_desc w) device inputs = Ok sample_inputs →
  wrap_for_input_match model loss_fn (name_ <$> inputs_ (w_model_desc w)) = Ok wrapped →
  forward wrapped false sample_inputs = Ok (PTuple ((PTensor <$> ts) ++ rest)) →
  length (outputs_ (w_model_desc w)) ≤ length ts →
  let r := convert_model_loss_fn_to_onnx model loss_fn device inputs
             opset_version flag w in
  ∃ call, w_export_calls r.1 = w_export_calls w ++ [call] ∧
          ex_example_outputs call = (PTensor <$> ts) ++ rest.
Proof.
  intros Hsi Hwrap Hfw Hlen r. subst r.
  rewrite convert_steps, Hsi, Hwrap, Hfw. cbn [sample_output_items].
  assert (record_output_dtypes ((PTensor <$> ts) ++ rest) (log_forward sample_inputs w)
          = record_output_dtypes (PTensor <$> ts) (log_forward sample_inputs w)) as ->.
  { unfold record_output_dtypes, bind, gets. cbn beta iota.
    rewrite zip_seq_app_ge; [done|]. by rewrite length_fmap. }
  destruct (record_output_dtypes_tensors ts (log_forward sample_inputs w))
    as [outs [-> _]].
  cbn zeta.
  match goal with |- context [torch_onnx_export ?c] => exists c end.
  split; [|done].
  destruct (torch_onnx_export _); [|done].
  destruct (onnx_load_model_from_string _); [|done].
  destruct (check_initializer_names _ _) as [[]|]; [|done].
  by destruct flag.
Qed.

(** X10. What a conversion returns once it has called the exporter with [call]:
    a failure of the exporter or of the loader is the result and no pass is
    applied; otherwise the loaded graph has its prefix removed and is
    checked against the parameters; a failed check is the result and no pass
    is applied; a passed check gives the graph, through exactly one internal
    pass when the flag is set and through none when it is not. *)
Theorem conversion_result (model : Module) (loss_fn : pyobj) (device : string)
    (inputs : pydata) (opset_version : Z) (flag : bool) (w w' : World)
    (r : result ModelProto) (call : ExportCall) :
  convert_model_loss_fn_to_onnx model loss_fn device inputs opset_version flag w = (w', r) →
  w_export_calls w' = w_export_calls w ++ [call] →
  (∀ e, torch_onnx_export call = Raise e → r = Raise e ∧ w_passes w' = w_passes w) ∧
  (∀ buffer, torch_onnx_export call = Ok buffer →
     (∀ e, onnx_load_model_from_string buffer = Raise e →
           r = Raise e ∧ w_passes w' = w_passes w) ∧
     (∀ g, onnx_load_model_from_string buffer = Ok g →
        (∀ e, check_initializer_names (ex_model call) (remove_wrapper_prefix g) = Raise e →
              r = Raise e ∧ w_passes w' = w_passes w) ∧
        (check_initializer_names (ex_model call) (remove_wrapper_prefix g) = Ok tt →
           if flag
           then r = run_postprocess (remove_wrapper_prefix g) ∧
                w_passes w' = w_passes w ++ [InternalPass]
           else r = Ok (remove_wrapper_prefix g) ∧ w_passes w' = w_passes w))).
Proof.
  rewrite convert_steps. intros Hrun Hcalls.
  assert (∀ l : list ExportCall, l ≠ l ++ [call]) as Hgrow.
  { intros l Heq. apply (f_equal length) in Heq. rewrite length_app in Heq. cbn in Heq. lia. }
  destruct (gather_sample_inputs _ _ _) as [si|];
    [|injection Hrun as <- _; by apply Hgrow in Hcalls].
  destruct (wrap_for_input_match _ _ _) as [wrapped|];
    [|injection Hrun as <- _; by apply Hgrow in Hcalls].
  destruct (forward _ _ _);
    [|injection Hrun as <- _; by apply Hgrow in Hcalls].
  destruct (sample_output_items _) as [items|];
    [|injection Hrun as <- _; by apply Hgrow in Hcalls].
  pose proof (record_output_dtypes_frame items (log_forward si w)) as Hframe.
  destruct (record_output_dtypes _ _) as [w1 [[]|]];
    cbn [fst] in Hframe; destruct Hframe as (_ & _ & He & Hp & _);
    [|injection Hrun as <- _; rewrite He in Hcalls; by apply Hgrow in Hcalls].
  cbn zeta in Hrun.
  match type of Hrun with context [torch_onnx_export ?c0] => set (c := c0) in * end.
  assert (call = c) as ->.
  { assert (w_export_calls w' = w_export_calls w ++ [c]) as Hc.
    { destruct (torch_onnx_export c); [|injection Hrun as <- _; cbn; by rewrite He].
      destruct (onnx_load_model_from_string _);
        [|injection Hrun as <- _; cbn; by rewrite He].
      destruct (check_initializer_names _ _) as [[]|];
        [|injection Hrun as <- _; cbn; by rewrite He].
      destruct flag; injection Hrun as <- _; cbn; by rewrite He. }
    rewrite Hc in Hcalls. apply app_inv_head in Hcalls. by injection Hcalls. }
  cbn [ex_model c] in *. clear Hcalls.
  split.
  - intros e Hex. rewrite Hex in Hrun. injection Hrun as <- <-. cbn. by rewrite Hp.
  - intros buffer Hex. rewrite Hex in Hrun. split.
    + intros e Hload. rewrite Hload in Hrun. injection Hrun as <- <-. cbn. by rewrite Hp.
    + intros g Hload. rewrite Hload in Hrun. split.
      * intros e Hcheck. subst c. cbn [ex_model] in Hcheck. rewrite Hcheck in Hrun.
        injection Hrun as <- <-. cbn. by rewrite Hp.
      * intros Hcheck. subst c. cbn [ex_model] in Hcheck. rewrite Hcheck in Hrun.
        destruct flag; injection Hrun as <- <-; cbn; by rewrite Hp.
Qed.

(** ** Further properties of the prefix removal and of the check *)

(** X11. A graph none of whose initializers has the wrapper prefix comes out of
    the prefix removal as it went in. *)
Theorem no_prefix_graph_unchanged (onnx_model : ModelProto) :
  (∀ n, n ∈ initializer (graph onnx_model) → startswith (tp_name n) "model_." = false) →
  remove_wrapper_prefix onnx_model = onnx_model.
Proof.
  intros Hnone. destruct onnx_model as [[inits nodes]]. cbn [graph initializer] in Hnone.
  unfold remove_wrapper_prefix. cbn [graph initializer node].
  rewrite rename_initializers_list, (visit_nodes_any_order _ (seq 0 _)) by done.
  do 2 f_equal.
  - apply list_eq. intros i. rewrite list_lookup_fmap.
    destruct (inits !! i) as [n|] eqn:Hi; [|done]. cbn.
    by rewrite (Hnone n) by by eapply list_elem_of_lookup_2.
  - apply list_eq. intros j. rewrite list_lookup_fmap.
    destruct (nodes !! j) as [[op inp outp]|] eqn:Hj; [|done]. cbn. f_equal.
    pose proof (rewrite_node_inputs (rename_initializers inits).1
                  {| n_op_type := op; n_input := inp; n_output := outp |}) as Hin.
    unfold rewrite_node in *. cbn [n_input n_op_type n_output] in *. rewrite Hin.
    f_equal. apply list_eq. intros i. rewrite list_lookup_fmap.
    destruct (inp !! i) as [name|]; [|done]. cbn.
    rewrite rename_initializers_dict, decide_False; [done|].
    intros [Hin' Hsw]. apply list_elem_of_fmap in Hin' as (n & -> & Hn).
    by rewrite (Hnone n Hn) in Hsw.
Qed.

Lemma renamed_initializer_names (inits : list TensorProto) (p : string) :
  p ∈ tp_name <$> (rename_initializers inits).2 ↔
  ("model_." +:+ p) ∈ (tp_name <$> inits) ∨
  (p ∈ (tp_name <$> inits) ∧ startswith p "model_." = false).
Proof.
  rewrite rename_initializers_list. rewrite <- list_fmap_compose.
  rewrite !list_elem_of_fmap. split.
  - intros (n & -> & Hn). cbn.
    destruct (startswith (tp_name n) "model_.") eqn:Hsw; cbn.
    + left. exists n. split; [|done]. symmetry. by apply (startswith_split _ "model_.").
    + right. split; [|done]. by exists n.
  - intros [(n & Hname & Hn) | [(n & -> & Hn) Hsw]].
    + exists n. split; [|done]. cbn. rewrite <- Hname, startswith_app. cbn.
      symmetry. apply (slice_from_app "model_.").
    + exists n. split; [|done]. cbn. by rewrite Hsw.
Qed.

(** X12. The check that follows the prefix removal passes exactly when every
    parameter name [p] of the checked module is, in the exported graph, the
    name of an initializer behind the prefix ([model_.p]) or the name of an
    initializer without the prefix. *)
Theorem check_after_prefix_removal (model : Module) (onnx_model : ModelProto) :
  check_initializer_names model (remove_wrapper_prefix onnx_model) = Ok tt ↔
  ∀ p, p ∈ (parameters_to_check model).*1 →
    ("model_." +:+ p) ∈ (tp_name <$> initializer (graph onnx_model)) ∨
    (p ∈ (tp_name <$> initializer (graph onnx_model)) ∧ startswith p "model_." = false).
Proof.
  rewrite check_initializer_names_ok. unfold remove_wrapper_prefix.
  cbn [graph initializer].
  split; intros Hall p Hp; apply renamed_initializer_names; by apply Hall.
Qed.

(** ** Further properties of the trainer object *)

(** X13. A constructed trainer has exactly the six attributes [__init__] assigns,
    holds the model under exactly one of [_torch_model] and [_onnx_model]
    (the other being [None]), keeps [loss_fn] only beside a PyTorch model,
    and has called neither the forward pass, nor the exporter, nor a
    pass. *)
Theorem constructor_attributes (model model_desc optim_config loss_fn options : pyobj)
    (w : World) :
  ORTTrainer model model_desc optim_config loss_fn options = Ok w →
  dom (w_attrs w) =
    ({["_torch_model"]} ∪ {["_onnx_model"]} ∪ {["_loss_fn"]} ∪ {["model_desc"]}
     ∪ {["optim_config"]} ∪ {["options"]} : gset string) ∧
  w_attrs w !! "optim_config" = Some optim_config ∧
  w_attrs w !! "model_desc" = Some ObjModelDesc ∧
  _ORTTrainerModelDesc model_desc = Ok (w_model_desc w) ∧
  ((isinstance_Module model = true ∧
    w_attrs w !! "_torch_model" = Some model ∧
    w_attrs w !! "_onnx_model" = Some (ObjData PNone) ∧
    w_attrs w !! "_loss_fn" = Some loss_fn) ∨
   (isinstance_ModelProto model = true ∧ is_None loss_fn = true ∧
    w_attrs w !! "_onnx_model" = Some model ∧
    w_attrs w !! "_torch_model" = Some (ObjData PNone) ∧
    w_attrs w !! "_loss_fn" = Some (ObjData PNone))) ∧
  w_forward_calls w = [] ∧ w_export_calls w = [] ∧ w_passes w = [].
Proof.
  unfold ORTTrainer, __init__, bind, lift, assert_, setattr_self, modify, raise.
  destruct (negb (is_None model)); [|done].
  destruct (isinstance_dict model_desc); [|done].
  destruct (isinstance_OptimizerConfig optim_config); [|done].
  destruct (is_None loss_fn || _); [|done].
  destruct (is_None options || _); [|done].
  cbn beta iota.
  destruct (isinstance_Module model) eqn:Hmod.
  - rewrite orb_true_r. cbn beta iota.
    destruct (_ORTTrainerModelDesc model_desc) as [d|]; [|done].
    destruct (ORTTrainerOptions options); [|done].
    intros [= <-]. cbn.
    split; [by rewrite !dom_insert_L, dom_empty_L, (right_id_L ∅ (∪));
              apply set_eq; intros k; rewrite !elem_of_union; tauto|].
    split; [by simplify_map_eq|]. split; [by simplify_map_eq|]. split; [done|].
    split; [|done]. left. by simplify_map_eq.
  - destruct (isinstance_ModelProto model) eqn:Hproto; [|done].
    destruct (is_None loss_fn) eqn:Hloss; [|done]. cbn beta iota.
    destruct (_ORTTrainerModelDesc model_desc) as [d|]; [|done].
    destruct (ORTTrainerOptions options); [|done].
    intros [= <-]. cbn.
    split; [by rewrite !dom_insert_L, dom_empty_L, (right_id_L ∅ (∪));
              apply set_eq; intros k; rewrite !elem_of_union; tauto|].
    split; [by simplify_map_eq|]. split; [by simplify_map_eq|]. split; [done|].
    split; [|done]. right. by simplify_map_eq.
Qed.

(** X14. The checks of the constructor in their order: the error raised is that
    of the first check that fails, the description and the options being
    validated last. The message for invalid options names [loss_fn]. *)
Theorem constructor_checks_in_order
    (model model_desc optim_config loss_fn options : pyobj) :
  let run := ORTTrainer model model_desc optim_config loss_fn options in
  let loss_ok :=
    is_None loss_fn || (callable loss_fn && Nat.eqb (signature_parameters loss_fn) 2) in
  let options_ok := is_None options || isinstance_ORTTrainerOptions options in
  (is_None model = true → run = Raise (AssertionError model_required)) ∧
  (is_None model = false →
   (isinstance_dict model_desc = false →
    run = Raise (AssertionError model_desc_not_dict)) ∧
   (isinstance_dict model_desc = true →
    (isinstance_OptimizerConfig optim_config = false →
     run = Raise (AssertionError optim_config_required)) ∧
    (isinstance_OptimizerConfig optim_config = true →
     (loss_ok = false → run = Raise (AssertionError loss_fn_not_callable)) ∧
     (loss_ok = true →
      (options_ok = false → run = Raise (AssertionError options_invalid)) ∧
      (options_ok = true →
       (isinstance_Module model = false → isinstance_ModelProto model = false →
        run = Raise (ValueError model_type_invalid)) ∧
       (isinstance_ModelProto model = true → is_None loss_fn = false →
        run = Raise (AssertionError loss_fn_with_onnx)) ∧
       (isinstance_Module model = true
        ∨ (isinstance_ModelProto model = true ∧ is_None loss_fn = true) →
        (∀ e, _ORTTrainerModelDesc model_desc = Raise e → run = Raise e) ∧
        (∀ d e, _ORTTrainerModelDesc model_desc = Ok d →
                ORTTrainerOptions options = Raise e → run = Raise e))))))).
Proof.
  intros run loss_ok options_ok. subst run loss_ok options_ok.
  unfold ORTTrainer, __init__, bind, lift, assert_, setattr_self, modify, raise.
  split; [by intros ->|]. intros ->. cbn [negb].
  split; [by intros ->|]. intros ->.
  split; [by intros ->|]. intros ->.
  split; [by intros ->|]. intros ->.
  split; [by intros ->|]. intros ->. cbn beta iota.
  split; [by intros -> ->|].
  split.
  - intros Hproto Hloss. destruct (isinstance_Module model) eqn:Hmod.
    + destruct model; done.
    + by rewrite Hproto, Hloss.
  - intros Hmodel. split.
    + intros e He. destruct Hmodel as [Hmod | [Hproto Hloss]].
      * rewrite Hmod, orb_true_r. cbn beta iota. by rewrite He.
      * assert (isinstance_Module model = false) as -> by (by destruct model).
        rewrite Hproto, Hloss. cbn beta iota. by rewrite He.
    + intros d e Hd He. destruct Hmodel as [Hmod | [Hproto Hloss]].
      * rewrite Hmod, orb_true_r. cbn beta iota. by rewrite Hd, He.
      * assert (isinstance_Module model = false) as -> by (by destruct model).
        rewrite Hproto, Hloss. cbn beta iota. by rewrite Hd, He.
Qed.

(** X15. For a trainer built from an ONNX model, the lazy build returns at once
    and every [train_step] returns [None]; the trainer and the logs are as
    before, whatever the inputs and however many the calls. *)
Theorem onnx_trainer_steps_do_nothing (g : ModelProto)
    (model_desc optim_config loss_fn options : pyobj) (w : World)
    (calls : list (list pydata)) :
  ORTTrainer (ObjModelProto g) model_desc optim_config loss_fn options = Ok w →
  (∀ input, _init_onnx_model_ input w = (w, Ok tt)) ∧
  train_steps calls w = (w, (λ _, Ok (ObjData PNone)) <$> calls).
Proof.
  intros Hnew. apply ORTTrainer_onnx in Hnew as Honnx. split.
  - intros input. unfold _init_onnx_model_. by rewrite bind_getattr_self, Honnx.
  - induction calls as [|input calls IH]; [done|].
    cbn [train_steps].
    assert (train_step input [] w = (w, Ok (ObjData PNone))) as ->.
    { unfold train_step. by rewrite bind_getattr_self, Honnx. }
    cbn [fst snd]. by rewrite IH.
Qed.

(** X16. The call of line 271 cannot bind its arguments: the function has no
    [self] parameter, so called through [self] it receives the trainer as
    [model], its fifth argument as [opset_version], and then
    [opset_version] again by keyword. Whatever the arguments, the call
    raises [TypeError] without running the conversion. *)
Theorem bound_conversion_call_fails (a1 a2 a3 a4 a5 k1 k2 : pyobj) (w : World) :
  ∃ msg,
    call_object (ObjMethod "convert_model_loss_fn_to_onnx")
      [a1; a2; a3; a4; a5]
      [("opset_version", k1); ("_enable_internal_postprocess", k2)] w
    = (w, Raise (TypeError msg)).
Proof.
  unfold call_object. cbn [String.eqb Ascii.eqb Bool.eqb].
  unfold call_convert, bind, lift.
  cbn [bind_positional convert_parameters result_bind bind_keywords].
  replace (bool_decide ("opset_version" ∈ convert_parameters)) with true
    by (by vm_compute).
  eexists. by simplify_map_eq.
Qed.

(** X17. In every state of the trainer, any number of [train_step] calls leaves
    the logs of the forward pass, of the exporter and of the passes, the
    description, and every attribute other than [torch_model_] as they
    were: in particular [_onnx_model], which the guard of [train_step]
    reads, is never assigned. *)
Theorem train_steps_change_nothing (calls : list (list pydata)) (w : World) :
  w_forward_calls (train_steps calls w).1 = w_forward_calls w ∧
  w_export_calls (train_steps calls w).1 = w_export_calls w ∧
  w_passes (train_steps calls w).1 = w_passes w ∧
  w_model_desc (train_steps calls w).1 = w_model_desc w ∧
  ∀ name, name ≠ "torch_model_" →
    w_attrs (train_steps calls w).1 !! name = w_attrs w !! name.
Proof.
  revert w. induction calls as [|input calls IH]; intros w; [done|].
  cbn [train_steps fst].
  destruct (train_step_frame input [] w) as (Hf & He & Hp & Hd & Ha).
  destruct (IH (train_step input [] w).1) as (Hf' & He' & Hp' & Hd' & Ha').
  rewrite Hf', He', Hp', Hd'. do 4 (split; [done|]).
  intros name Hne. by rewrite Ha', Ha.
Qed.

(** ** [TrainStepInfo] *)

Lemma all_finite_check (o : pyobj) :
  is_None o || TrainStepInfo.isinstance_bool o = true ↔
  o = ObjData PNone ∨ ∃ b, o = ObjData (PBool b).
Proof.
  split.
  - destruct o as [[]| | | | | | | | | |]; try done; eauto.
  - by intros [-> | [b ->]].
Qed.

Lemma step_check (o : pyobj) :
  is_None o || (TrainStepInfo.isinstance_int o && TrainStepInfo.ge_zero o) = true ↔
  o = ObjData PNone ∨ (∃ z, o = ObjData (PInt z) ∧ (0 ≤ z)%Z) ∨ ∃ b, o = ObjData (PBool b).
Proof.
  split.
  - destruct o as [[| |z| | | | |]| | | | | | | | | |]; try done; eauto.
    cbn. intros Hz. right. left. exists z. split; [done|]. by apply Z.leb_le.
  - intros [-> | [(z & -> & Hz) | [b ->]]]; try done. cbn. by apply Z.leb_le.
Qed.

Lemma optimizer_config_check (o : pyobj) :
  is_None o || isinstance_OptimizerConfig o = true ↔
  o = ObjData PNone ∨ ∃ lr, o = ObjOptimizerConfig lr.
Proof.
  split.
  - destruct o as [[]| | | | | | | | | |]; try done; eauto.
  - by intros [-> | [lr ->]].
Qed.

(** X18. [TrainStepInfo(all_finite, step, optimizer_config)] stores its three
    arguments when [all_finite] is [None] or a bool, [step] is [None] or an
    int that is not negative (zero and, [bool] being a subclass of [int],
    [True] and [False] included), and [optimizer_config] is [None] or an
    optimizer config; otherwise it raises the assertion of the first
    argument, in that order, that is not so. *)
Theorem train_step_info_init (all_finite step optimizer_config : pyobj) :
  let finite_ok := all_finite = ObjData PNone ∨ ∃ b, all_finite = ObjData (PBool b) in
  let step_ok :=
    step = ObjData PNone ∨ (∃ z, step = ObjData (PInt z) ∧ (0 ≤ z)%Z)
    ∨ ∃ b, step = ObjData (PBool b) in
  let config_ok :=
    optimizer_config = ObjData PNone ∨ ∃ lr, optimizer_config = ObjOptimizerConfig lr in
  (finite_ok → step_ok → config_ok →
   TrainStepInfo.__init__ all_finite step optimizer_config
   = Ok {| TrainStepInfo.all_finite := all_finite;
           TrainStepInfo.step := step;
           TrainStepInfo.optimizer_config := optimizer_config |}) ∧
  (¬ finite_ok →
   TrainStepInfo.__init__ all_finite step optimizer_config
   = Raise (AssertionError TrainStepInfo.all_finite_invalid)) ∧
  (finite_ok → ¬ step_ok →
   TrainStepInfo.__init__ all_finite step optimizer_config
   = Raise (AssertionError TrainStepInfo.step_invalid)) ∧
  (finite_ok → step_ok → ¬ config_ok →
   TrainStepInfo.__init__ all_finite step optimizer_config
   = Raise (AssertionError TrainStepInfo.optimizer_config_invalid)).
Proof.
  intros finite_ok step_ok config_ok. subst finite_ok step_ok config_ok.
  rewrite <- all_finite_check, <- step_check, <- optimizer_config_check.
  unfold TrainStepInfo.__init__, assert_.
  destruct (is_None all_finite || _); [|by repeat split].
  destruct (is_None step || _); [|by repeat split].
  destruct (is_None optimizer_config || _); by repeat split.
Qed.

End Properties.


(** * Instances on the sample trainer *)

(** C4: the claim as stated fails when an input and an output share a
    name: the output [x] of [Sample.shared_name_desc] has no [str] dimension,
    yet the map has an entry under [x], the one of the input. *)
Lemma dynamic_axes_shared_name_counterexample :
  ¬ (∀ io, io ∈ inputs_ Sample.shared_name_desc ++ outputs_ Sample.shared_name_desc →
       (∀ i s, shape_ io !! i ≠ Some (AxStr s)) →
       dynamic_axes_of Sample.shared_name_desc !! name_ io = None).
Proof.
  intros Hclaim.
  specialize (Hclaim {| name_ := "x"; shape_ := [AxInt 4]; dtype_ := None |}).
  assert (dynamic_axes_of Sample.shared_name_desc !! "x" = None) as Hnone.
  { apply Hclaim.
    - cbn. right. left.
    - intros [|[|i]] s; discriminate. }
  vm_compute in Hnone. discriminate.
Qed.

Lemma dynamic_axes_distinct_names_witness :
  NoDup (name_ <$> inputs_ Sample.desc ++ outputs_ Sample.desc) ∧
  (∃ axes, dynamic_axes_of Sample.desc !! "x" = Some axes ∧
           ∀ i s, axes !! i = Some s ↔ [AxStr "batch"; AxInt 4] !! i = Some (AxStr s)) ∧
  dynamic_axes_of Sample.desc !! "y" = None.
Proof.
  assert (NoDup (name_ <$> inputs_ Sample.desc ++ outputs_ Sample.desc)) as Hnd.
  { apply (bool_decide_unpack _). vm_compute. exact I. }
  split; [exact Hnd|].
  destruct (dynamic_axes_distinct_names Sample.desc Hnd) as [Hio _].
  split.
  - apply (Hio {| name_ := "x"; shape_ := [AxStr "batch"; AxInt 4]; dtype_ := None |}).
    + cbn. left.
    + exists 0, "batch". reflexivity.
  - apply (Hio {| name_ := "y"; shape_ := []; dtype_ := None |}).
    + cbn. right. left.
    + intros i s. destruct i; discriminate.
Defined.

Lemma sample_inputs_by_container_witness :
  gather_sample_inputs Sample.desc "cpu" (PList [PTensor Sample.x; PTensor Sample.y])
    = Ok [tensor_to "cpu" Sample.x] ∧
  (∃ samples,
     gather_sample_inputs Sample.desc "cpu" (PDict {["x" := PTensor Sample.x]})
       = Ok samples ∧ length samples = 1) ∧
  convert_model_loss_fn_to_onnx (env := Sample.env) Sample.net (ObjData PNone) "cpu"
    (PInt 3) 12 true Sample.built
    = (Sample.built, Raise (RuntimeError unexpected_input_type)).
Proof.
  destruct (sample_inputs_by_container (env := Sample.env) Sample.desc "cpu")
    as (_ & Hdict & Hseq & Hother).
  split; [|split].
  - apply (Hseq [PTensor Sample.x; PTensor Sample.y] [Sample.x]). reflexivity.
  - destruct (Hdict {["x" := PTensor Sample.x]}) as (samples & Hrun & Hlen & _).
    + intros io Hio. apply list_elem_of_singleton in Hio as ->.
      exists Sample.x. reflexivity.
    + exists samples. split; [exact Hrun|exact Hlen].
  - apply (Hother (PInt 3)); try reflexivity; intros; discriminate.
Defined.

Lemma wrapper_prefix_removed_witness :
  (∃ n', initializer (graph (remove_wrapper_prefix Sample.exported)) !! 0 = Some n' ∧
         tp_name n' = "weight") ∧
  (∃ nd', node (graph (remove_wrapper_prefix Sample.exported)) !! 0 = Some nd' ∧
          n_input nd' !! 1 = Some "weight" ∧ n_input nd' !! 0 = Some "x") ∧
  visit_nodes (rename_initializers (initializer (graph Sample.exported))).1 [1; 0]
    (node (graph Sample.exported))
    = node (graph (remove_wrapper_prefix Sample.exported)).
Proof.
  destruct (wrapper_prefix_removed Sample.exported) as (_ & Hinit & _ & Hnode & Horder).
  split; [|split].
  - destruct (Hinit 0 {| tp_name := "model_.weight"; tp_data := [5; 6; 7; 8]%Z |} eq_refl)
      as (n' & Hn' & _ & Hname & _).
    exists n'. split; [exact Hn'|]. apply Hname. reflexivity.
  - destruct (Hnode 0 {| n_op_type := "Gemm";
                         n_input := ["x"; "model_.weight"; "model_.bias"];
                         n_output := ["h"] |} eq_refl)
      as (nd' & Hnd' & _ & _ & _ & Hin).
    exists nd'. split; [exact Hnd'|]. split.
    + apply (Hin 1 "model_.weight" eq_refl).
      * cbn. left.
      * reflexivity.
    + apply (Hin 0 "x" eq_refl). right. reflexivity.
  - apply Horder. cbn. apply perm_swap.
Defined.

(** C7: the message of the error does not name the missing parameter. *)
Lemma initializer_mismatch_message_counterexample :
  "weight" ∈ (named_parameters Sample.net).*1 ∧
  ("weight" ∉ tp_name <$> initializer (graph Sample.no_initializers)) ∧
  ¬ ∃ msg, check_initializer_names Sample.net Sample.no_initializers
             = Raise (AssertionError msg) ∧
           contains msg "weight" = true.
Proof.
  split; [cbn; left|]. split; [cbn; apply not_elem_of_nil|].
  intros (msg & Hraise & Hnamed).
  vm_compute in Hraise. injection Hraise as <-.
  vm_compute in Hnamed. discriminate.
Qed.

Lemma initializer_check_witness :
  (model_ Sample.wrapped = Some Sample.net ∨
   (model_ Sample.wrapped = None ∧ Sample.wrapped = Sample.net)) ∧
  check_initializer_names Sample.wrapped (remove_wrapper_prefix Sample.exported) = Ok tt ∧
  check_initializer_names Sample.wrapped Sample.no_initializers
    = Raise (AssertionError initializer_mismatch).
Proof.
  assert (model_ Sample.wrapped = Some Sample.net ∨
          (model_ Sample.wrapped = None ∧ Sample.wrapped = Sample.net)) as Hsrc.
  { left. reflexivity. }
  split; [exact Hsrc|]. split.
  - apply (initializer_check Sample.wrapped Sample.net _ Hsrc).
    apply Forall_forall. apply (bool_decide_unpack _). vm_compute. exact I.
  - apply (initializer_check Sample.wrapped Sample.net _ Hsrc).
    intros Hall. specialize (Hall "weight"). cbn in Hall.
    eapply not_elem_of_nil. apply Hall. left.
Defined.

Lemma export_invocation_witness :
  ∃ w' r call,
    convert_model_loss_fn_to_onnx (env := Sample.env) Sample.net (ObjData PNone) "cpu"
      (PTensor Sample.x) 12 true Sample.built = (w', r) ∧
    w_export_calls w' = [call] ∧
    ex_input_names call = ["x"] ∧
    ex_output_names call = ["y"] ∧
    ex_dynamic_axes call = dynamic_axes_of Sample.desc ∧
    ex_training call = TrainingMode_TRAINING ∧
    ex_do_constant_folding call = false ∧
    ex_args call = [tensor_to "cpu" Sample.x] ∧
    ex_example_outputs call = [PTensor Sample.y].
Proof.
  destruct (convert_model_loss_fn_to_onnx (env := Sample.env) Sample.net (ObjData PNone)
              "cpu" (PTensor Sample.x) 12 true Sample.built) as [w' r] eqn:Hrun.
  destruct (export_invocation (env := Sample.env) _ _ _ _ _ _ _ _ _ Hrun)
    as [Hnone | (si & wrapped & out & items & call & Hsi & Hwrap & Hfw & Hitems & _ &
                 Hcalls & _ & _ & Hargs & Hin & Hout & Hdyn & Htr & Hfold & Hex & _)].
  - vm_compute in Hrun. injection Hrun as <- _. discriminate Hnone.
  - exists w', r, call.
    vm_compute in Hsi. injection Hsi as <-.
    vm_compute in Hwrap. injection Hwrap as <-.
    vm_compute in Hfw. injection Hfw as <-.
    vm_compute in Hitems. injection Hitems as <-.
    split; [reflexivity|]. split; [exact Hcalls|].
    split; [exact Hin|]. split; [exact Hout|]. split; [exact Hdyn|].
    split; [exact Htr|]. split; [exact Hfold|]. split; [exact Hargs|exact Hex].
Defined.

(** One sample output against the two declared outputs of [Sample.desc2],
    and two sample outputs against the one declared output of
    [Sample.desc]. *)
Lemma output_dtypes_paired_witness :
  (gather_sample_inputs (w_model_desc Sample.world2) "cpu"
     (PList [PTensor Sample.x; PTensor Sample.y])
     = Ok [tensor_to "cpu" Sample.x; tensor_to "cpu" Sample.y] ∧
   forward Sample.net false [tensor_to "cpu" Sample.x; tensor_to "cpu" Sample.y]
     = Ok (PTensor Sample.y) ∧
   let w' := (convert_model_loss_fn_to_onnx (env := Sample.bare_env) Sample.net
                (ObjData PNone) "cpu" (PList [PTensor Sample.x; PTensor Sample.y])
                12 true Sample.world2).1 in
   length (w_export_calls w') = 1 ∧
   length (outputs_ (w_model_desc w')) = 2 ∧
   (∃ io', outputs_ (w_model_desc w') !! 0 = Some io' ∧
           name_ io' = "loss" ∧ shape_ io' = [] ∧ dtype_ io' = Some float16) ∧
   (∃ io', outputs_ (w_model_desc w') !! 1 = Some io' ∧
           name_ io' = "x" ∧ shape_ io' = [AxInt 2; AxStr "seq"] ∧
           dtype_ io' = None)) ∧
  (gather_sample_inputs (w_model_desc Sample.built) "cpu" (PTensor Sample.x)
     = Ok [tensor_to "cpu" Sample.x] ∧
   forward Sample.pair_net false [tensor_to "cpu" Sample.x]
     = Ok (PList [PTensor Sample.y; PTensor Sample.x]) ∧
   let w' := (convert_model_loss_fn_to_onnx (env := Sample.bare_env) Sample.pair_net
                (ObjData PNone) "cpu" (PTensor Sample.x) 12 true Sample.built).1 in
   length (w_export_calls w') = 1 ∧
   length (outputs_ (w_model_desc w')) = 1 ∧
   ∃ io', outputs_ (w_model_desc w') !! 0 = Some io' ∧
          name_ io' = "y" ∧ shape_ io' = [] ∧ dtype_ io' = Some float16).
Proof.
  split.
  - assert (gather_sample_inputs (w_model_desc Sample.world2) "cpu"
              (PList [PTensor Sample.x; PTensor Sample.y])
            = Ok [tensor_to "cpu" Sample.x; tensor_to "cpu" Sample.y]) as Hsi
      by reflexivity.
    split; [exact Hsi|]. split; [reflexivity|].
    destruct (output_dtypes_paired (env := Sample.bare_env) Sample.net (ObjData PNone)
                "cpu" (PList [PTensor Sample.x; PTensor Sample.y]) 12 true Sample.world2
                [tensor_to "cpu" Sample.x; tensor_to "cpu" Sample.y] Sample.net
                (PTensor Sample.y) [Sample.y] Hsi eq_refl eq_refl)
      as (Hexp & _ & Hlen & Hdt).
    + right. right. exists Sample.y. split; reflexivity.
    + split; [exact Hexp|]. split; [exact Hlen|]. split.
      * exact (Hdt 0 {| name_ := "loss"; shape_ := []; dtype_ := None |} eq_refl).
      * exact (Hdt 1 {| name_ := "x"; shape_ := [AxInt 2; AxStr "seq"]; dtype_ := None |}
                 eq_refl).
  - assert (gather_sample_inputs (w_model_desc Sample.built) "cpu" (PTensor Sample.x)
            = Ok [tensor_to "cpu" Sample.x]) as Hsi by reflexivity.
    split; [exact Hsi|]. split; [reflexivity|].
    destruct (output_dtypes_paired (env := Sample.bare_env) Sample.pair_net (ObjData PNone)
                "cpu" (PTensor Sample.x) 12 true Sample.built
                [tensor_to "cpu" Sample.x] Sample.pair_net
                (PList [PTensor Sample.y; PTensor Sample.x]) [Sample.y; Sample.x]
                Hsi eq_refl eq_refl)
      as (Hexp & _ & Hlen & Hdt).
    + right. left. reflexivity.
    + split; [exact Hexp|]. split; [exact Hlen|].
      exact (Hdt 0 {| name_ := "y"; shape_ := []; dtype_ := None |} eq_refl).
Defined.


Lemma train_steps_native_never_export_witness :
  Sample.trainer = Ok Sample.built ∧
  (train_steps (env := Sample.env) [[PTensor Sample.x]; [PTensor Sample.x]] Sample.built).2
    = [Raise (AttributeError "torch_model_"); Raise (AttributeError "torch_model_")] ∧
  w_export_calls
    (train_steps (env := Sample.env) [[PTensor Sample.x]; [PTensor Sample.x]] Sample.built).1
    = [].
Proof.
  assert (Sample.trainer = Ok Sample.built) as Hnew by reflexivity.
  split; [exact Hnew|].
  destruct (train_steps_native_never_export (env := Sample.env) Sample.net Sample.raw_desc
              (ObjOptimizerConfig 1) (ObjData PNone) (ObjData PNone) Sample.built
              [[PTensor Sample.x]; [PTensor Sample.x]] Hnew)
    as (_ & Hres & Hexp & _).
  split; [exact Hres|exact Hexp].
Defined.

Lemma lazy_build_applies_no_pass_witness :
  w_attrs Sample.built !! "_onnx_model" = Some (ObjData PNone) ∧
  w_attrs Sample.built !! "_torch_model" = Some (ObjModule Sample.net) ∧
  w_passes (_init_onnx_model_ (env := Sample.env) [PTensor Sample.x] Sample.built).1 = [] ∧
  ∃ e, (_init_onnx_model_ (env := Sample.env) [PTensor Sample.x] Sample.built).2 = Raise e.
Proof.
  assert (w_attrs Sample.built !! "_onnx_model" = Some (ObjData PNone)) as Honnx
    by reflexivity.
  assert (w_attrs Sample.built !! "_torch_model" = Some (ObjModule Sample.net)) as Htorch
    by reflexivity.
  split; [exact Honnx|]. split; [exact Htorch|].
  destruct (lazy_build_applies_no_pass (env := Sample.env) [PTensor Sample.x]
              Sample.built Sample.net Honnx Htorch) as (Hpass & _ & Hraise).
  split; [exact Hpass|exact Hraise].
Defined.

(** C2: the trainer built from the exported graph, saved after one step;
    and the trainer built from the module, saved before any step. *)
Lemma save_as_onnx_persists_nothing_witness :
  Sample.onnx_trainer = Ok Sample.built_onnx ∧
  w_attrs Sample.built_onnx !! "_onnx_model" = Some (ObjModelProto Sample.exported) ∧
  train_step (env := Sample.env) [PTensor Sample.x] [] Sample.built_onnx
    = (Sample.built_onnx, Ok (ObjData PNone)) ∧
  save_as_onnx "model.onnx"
    (train_step (env := Sample.env) [PTensor Sample.x] [] Sample.built_onnx).1
    = (Sample.built_onnx, Ok (ObjData PNone)) ∧
  save_as_onnx "model.onnx" Sample.built = (Sample.built, Ok (ObjData PNone)).
Proof.
  assert (Sample.onnx_trainer = Ok Sample.built_onnx) as Hnew by reflexivity.
  split; [exact Hnew|].
  destruct (save_as_onnx_persists_nothing (env := Sample.env) Sample.exported
              Sample.raw_desc (ObjOptimizerConfig 1) (ObjData PNone) (ObjData PNone)
              Sample.built_onnx [PTensor Sample.x] "model.onnx" Hnew)
    as (Hgraph & Hstep & Hsave & Hany).
  split; [exact Hgraph|]. split; [exact Hstep|]. split; [exact Hsave|].
  exact (Hany Sample.built).
Defined.

(** * Further instances on the sample values *)

Lemma dynamic_axes_last_wins_witness :
  ∃ axes, dynamic_axes_of Sample.desc2 !! "x" = Some axes ∧
          ∀ i s, axes !! i = Some s ↔ [AxInt 2; AxStr "seq"] !! i = Some (AxStr s).
Proof.
  apply (dynamic_axes_last_wins Sample.desc2
           [ {| name_ := "x"; shape_ := [AxStr "batch"; AxInt 4]; dtype_ := None |};
             {| name_ := "label"; shape_ := [AxStr "batch"]; dtype_ := None |};
             {| name_ := "loss"; shape_ := []; dtype_ := None |} ]
           []
           {| name_ := "x"; shape_ := [AxInt 2; AxStr "seq"]; dtype_ := None |}).
  - reflexivity.
  - exists 1, "seq". reflexivity.
  - intros io' Hin. by apply elem_of_nil in Hin.
Defined.

Lemma dynamic_axes_entries_witness :
  dynamic_axes_of Sample.desc2 !! "loss" = None ∧
  ∀ axes, dynamic_axes_of Sample.desc2 !! "label" = Some axes → axes ≠ ∅.
Proof.
  split.
  - apply (dynamic_axes_entries Sample.desc2 "loss").
    intros io Hin Hname i s.
    apply list_elem_of_In in Hin. cbn in Hin.
    destruct Hin as [<- | [<- | [<- | [<- | []]]]]; try discriminate Hname.
    destruct i; discriminate.
  - intros axes Haxes.
    apply (proj1 (dynamic_axes_entries Sample.desc2 "label") axes Haxes).
Defined.

Lemma sample_inputs_on_device_witness :
  gather_sample_inputs Sample.desc "cpu" (PTensor Sample.x) = Ok [tensor_to "cpu" Sample.x] ∧
  Forall (λ t, t_device t = "cpu") [tensor_to "cpu" Sample.x].
Proof.
  assert (gather_sample_inputs Sample.desc "cpu" (PTensor Sample.x)
          = Ok [tensor_to "cpu" Sample.x]) as Hrun by reflexivity.
  split; [exact Hrun|].
  apply (sample_inputs_on_device Sample.desc "cpu" (PTensor Sample.x) _ Hrun).
Defined.

Lemma sample_inputs_missing_key_witness :
  gather_sample_inputs Sample.desc2 "cpu" (PDict {["x" := PTensor Sample.x]})
  = Raise (KeyError "label").
Proof.
  apply (sample_inputs_missing_key (env := Sample.env) Sample.desc2 "cpu"
           {["x" := PTensor Sample.x]}
           [ {| name_ := "x"; shape_ := [AxStr "batch"; AxInt 4]; dtype_ := None |} ]
           []
           {| name_ := "label"; shape_ := [AxStr "batch"]; dtype_ := None |}).
  - reflexivity.
  - intros io' Hin. apply list_elem_of_singleton in Hin as ->.
    exists Sample.x. reflexivity.
  - reflexivity.
Defined.

Lemma sample_inputs_not_tensor_witness :
  gather_sample_inputs Sample.desc2 "cpu" (PList [PTensor Sample.x; PInt 3])
  = Raise (AttributeError "to").
Proof.
  apply (sample_inputs_not_tensor (env := Sample.env) Sample.desc2 "cpu"
           [Sample.x] (PInt 3) []).
  - cbn. lia.
  - reflexivity.
Defined.

Lemma conversion_stops_before_export_witness :
  convert_model_loss_fn_to_onnx (env := Sample.bare_env) Sample.failing_net (ObjData PNone)
    "cpu" (PList [PTensor Sample.x; PTensor Sample.y]) 12 true Sample.world2
  = (log_forward [tensor_to "cpu" Sample.x; tensor_to "cpu" Sample.y] Sample.world2,
     Raise (ExternalError "size mismatch")).
Proof.
  assert (gather_sample_inputs (w_model_desc Sample.world2) "cpu"
            (PList [PTensor Sample.x; PTensor Sample.y])
          = Ok [tensor_to "cpu" Sample.x; tensor_to "cpu" Sample.y]) as Hsi by reflexivity.
  destruct (conversion_stops_before_export (env := Sample.bare_env) Sample.failing_net
              (ObjData PNone) "cpu" (PList [PTensor Sample.x; PTensor Sample.y]) 12 true
              Sample.world2 _ Hsi) as (_ & Hforward & _).
  apply (Hforward Sample.failing_net); reflexivity.
Defined.

Lemma output_dtypes_stop_at_non_tensor_witness :
  (convert_model_loss_fn_to_onnx (env := Sample.bare_env) Sample.odd_net (ObjData PNone)
     "cpu" (PList [PTensor Sample.x; PTensor Sample.y]) 12 true Sample.world2).2
  = Raise (AttributeError "dtype") ∧
  outputs_ (w_model_desc
    (convert_model_loss_fn_to_onnx (env := Sample.bare_env) Sample.odd_net (ObjData PNone)
       "cpu" (PList [PTensor Sample.x; PTensor Sample.y]) 12 true Sample.world2).1) !! 0
  = Some {| name_ := "loss"; shape_ := []; dtype_ := Some float16 |}.
Proof.
  destruct (output_dtypes_stop_at_non_tensor (env := Sample.bare_env) Sample.odd_net
              (ObjData PNone) "cpu" (PList [PTensor Sample.x; PTensor Sample.y]) 12 true
              Sample.world2 [tensor_to "cpu" Sample.x; tensor_to "cpu" Sample.y]
              Sample.odd_net (PTuple [PTensor Sample.y; PInt 7]) [Sample.y] (PInt 7) [])
    as (Hraise & _ & Hdt).
  - reflexivity.
  - reflexivity.
  - reflexivity.
  - left. reflexivity.
  - reflexivity.
  - cbn. lia.
  - split; [exact Hraise|].
    apply (Hdt 0 {| name_ := "loss"; shape_ := []; dtype_ := None |}). reflexivity.
Defined.

Lemma surplus_outputs_not_inspected_witness :
  ∃ call,
    w_export_calls
      (convert_model_loss_fn_to_onnx (env := Sample.bare_env) Sample.odd_net
         (ObjData PNone) "cpu" (PTensor Sample.x) 12 true Sample.built).1
    = w_export_calls Sample.built ++ [call] ∧
    ex_example_outputs call = [PTensor Sample.y; PInt 7].
Proof.
  apply (surplus_outputs_not_inspected (env := Sample.bare_env) Sample.odd_net
           (ObjData PNone) "cpu" (PTensor Sample.x) 12 true Sample.built
           [tensor_to "cpu" Sample.x] Sample.odd_net [Sample.y] [PInt 7]).
  - reflexivity.
  - reflexivity.
  - reflexivity.
  - cbn. lia.
Defined.

Lemma conversion_result_witness :
  ∃ w' call,
    convert_model_loss_fn_to_onnx (env := Sample.env) Sample.net (ObjData PNone) "cpu"
      (PTensor Sample.x) 12 true Sample.built
    = (w', Ok (remove_wrapper_prefix Sample.exported)) ∧
    w_export_calls w' = w_export_calls Sample.built ++ [call] ∧
    w_passes w' = w_passes Sample.built ++ [InternalPass].
Proof.
  destruct (convert_model_loss_fn_to_onnx (env := Sample.env) Sample.net (ObjData PNone)
              "cpu" (PTensor Sample.x) 12 true Sample.built) as [w' r] eqn:Hrun.
  assert (∃ call, w_export_calls w' = w_export_calls Sample.built ++ [call] ∧
                  ex_model call = Sample.wrapped) as (call & Hcall & Hmodel).
  { vm_compute in Hrun. injection Hrun as <- _. eexists. split; reflexivity. }
  destruct (conversion_result (env := Sample.env) _ _ _ _ _ _ _ _ _ call Hrun Hcall)
    as (_ & Hok).
  destruct (Hok "onnx" eq_refl) as (_ & Hload).
  destruct (Hload Sample.exported eq_refl) as (_ & Hcheck).
  destruct Hcheck as [Hr Hpass].
  - rewrite Hmodel. reflexivity.
  - exists w', call. split; [by rewrite Hr|]. split; [exact Hcall|exact Hpass].
Defined.

Lemma no_prefix_graph_unchanged_witness :
  remove_wrapper_prefix (remove_wrapper_prefix Sample.exported)
  = remove_wrapper_prefix Sample.exported.
Proof.
  apply no_prefix_graph_unchanged.
  apply list.Forall_forall. apply (bool_decide_unpack _). vm_compute. exact I.
Defined.

Lemma check_after_prefix_removal_witness :
  check_initializer_names Sample.wrapped (remove_wrapper_prefix Sample.exported) = Ok tt.
Proof.
  apply check_after_prefix_removal.
  intros p Hp. left. apply list_elem_of_In in Hp. apply list_elem_of_In.
  cbn in Hp. destruct Hp as [<- | [<- | []]]; cbn; tauto.
Defined.

Lemma constructor_attributes_witness :
  Sample.trainer = Ok Sample.built ∧
  dom (w_attrs Sample.built) =
    ({["_torch_model"]} ∪ {["_onnx_model"]} ∪ {["_loss_fn"]} ∪ {["model_desc"]}
     ∪ {["optim_config"]} ∪ {["options"]} : gset string) ∧
  w_export_calls Sample.built = [].
Proof.
  assert (Sample.trainer = Ok Sample.built) as Hnew by reflexivity.
  split; [exact Hnew|].
  destruct (constructor_attributes (env := Sample.env) _ _ _ _ _ _ Hnew)
    as (Hdom & _ & _ & _ & _ & _ & Hexp & _).
  split; [exact Hdom|exact Hexp].
Defined.

Lemma constructor_checks_in_order_witness :
  ORTTrainer (env := Sample.env) (ObjModelProto Sample.exported) Sample.raw_desc
    (ObjOptimizerConfig 1) (ObjFunction 3) (ObjData PNone)
  = Raise (AssertionError loss_fn_not_callable) ∧
  ORTTrainer (env := Sample.env) (ObjData (PInt 5)) (ObjData PNone)
    (ObjOptimizerConfig 1) (ObjData PNone) (ObjData PNone)
  = Raise (AssertionError model_desc_not_dict).
Proof.
  split.
  - destruct (constructor_checks_in_order (env := Sample.env)
                (ObjModelProto Sample.exported) Sample.raw_desc (ObjOptimizerConfig 1)
                (ObjFunction 3) (ObjData PNone)) as (_ & Hrest).
    destruct (Hrest eq_refl) as (_ & Hdict).
    destruct (Hdict eq_refl) as (_ & Hoptim).
    destruct (Hoptim eq_refl) as (Hloss & _).
    apply Hloss. reflexivity.
  - destruct (constructor_checks_in_order (env := Sample.env)
                (ObjData (PInt 5)) (ObjData PNone) (ObjOptimizerConfig 1)
                (ObjData PNone) (ObjData PNone)) as (_ & Hrest).
    destruct (Hrest eq_refl) as (Hdict & _).
    apply Hdict. reflexivity.
Defined.

Lemma onnx_trainer_steps_do_nothing_witness :
  Sample.onnx_trainer = Ok Sample.built_onnx ∧
  train_steps (env := Sample.env) [[PTensor Sample.x]; []] Sample.built_onnx
  = (Sample.built_onnx, [Ok (ObjData PNone); Ok (ObjData PNone)]).
Proof.
  assert (Sample.onnx_trainer = Ok Sample.built_onnx) as Hnew by reflexivity.
  split; [exact Hnew|].
  apply (onnx_trainer_steps_do_nothing (env := Sample.env) Sample.exported Sample.raw_desc
           (ObjOptimizerConfig 1) (ObjData PNone) (ObjData PNone) Sample.built_onnx
           [[PTensor Sample.x]; []] Hnew).
Defined.

Lemma train_steps_change_nothing_witness :
  w_attrs (train_steps (env := Sample.env) [[PTensor Sample.x]; [PTensor Sample.x]]
             Sample.built).1 !! "_onnx_model"
  = w_attrs Sample.built !! "_onnx_model".
Proof.
  destruct (train_steps_change_nothing (env := Sample.env)
              [[PTensor Sample.x]; [PTensor Sample.x]] Sample.built)
    as (_ & _ & _ & _ & Hattrs).
  apply Hattrs. discriminate.
Defined.

Lemma train_step_info_init_witness :
  TrainStepInfo.__init__ (ObjData (PBool true)) (ObjData (PInt 0)) (ObjOptimizerConfig 1)
  = Ok {| TrainStepInfo.all_finite := ObjData (PBool true);
          TrainStepInfo.step := ObjData (PInt 0);
          TrainStepInfo.optimizer_config := ObjOptimizerConfig 1 |} ∧
  TrainStepInfo.__init__ (ObjData PNone) (ObjData (PInt (-1))) (ObjData PNone)
  = Raise (AssertionError TrainStepInfo.step_invalid).
Proof.
  split.
  - apply (train_step_info_init (ObjData (PBool true)) (ObjData (PInt 0))
             (ObjOptimizerConfig 1)).
    + right. exists true. reflexivity.
    + right. left. exists 0%Z. split; [reflexivity|lia].
    + right. exists 1%Z. reflexivity.
  - apply (train_step_info_init (ObjData PNone) (ObjData (PInt (-1))) (ObjData PNone)).
    + left. reflexivity.
    + intros [Hnone | [(z & Hz & Hpos) | (b & Hb)]];
        [discriminate Hnone| |discriminate Hb].
      injection Hz as <-. lia.
Defined.
